(** * Voice assistant command dispatch engine

    A shallow embedding of [app/static/js/voice-assistant.js] (class
    [VoiceAssistant]) and the properties of its command matcher, its
    recognition life cycle and its speech output.

    JavaScript strings are sequences of UTF-16 code units; they are modelled
    as [list N].  The closures stored in the command table are
    defunctionalised into the inductive type [Action]; the browser
    capabilities the class talks to (speech recognition, speech synthesis,
    [fetch], [setTimeout], [window.location], the console) are modelled by an
    explicit [World] that is threaded through every method. *)

From Stdlib Require Import List Bool Arith NArith ZArith QArith Lia.
From Stdlib Require Import Strings.String Strings.Ascii Numbers.DecimalString.
From Stdlib.QArith Require Import Qround.
Import ListNotations.

(** ** JavaScript strings *)

Module JsString.

Definition jsstring : Type := list N.

(** A source literal (all literals of the file are ASCII). *)
Definition js (s : string) : jsstring :=
  map N_of_ascii (list_ascii_of_string s).

Fixpoint eqb (s t : jsstring) : bool :=
  match s, t with
  | [], [] => true
  | c :: s', d :: t' => N.eqb c d && eqb s' t'
  | _, _ => false
  end.

(** [s.startsWith(t)] *)
Fixpoint startsWith (s t : jsstring) : bool :=
  match t, s with
  | [], _ => true
  | _ :: _, [] => false
  | d :: t', c :: s' => N.eqb c d && startsWith s' t'
  end.

(** [s.includes(t)]: [t] occurs in [s] as a contiguous run of code units. *)
Fixpoint includes (s t : jsstring) : bool :=
  startsWith s t ||
  match s with
  | [] => false
  | _ :: s' => includes s' t
  end.

(** ECMAScript WhiteSpace and LineTerminator code points, the characters
    that [String.prototype.trim] strips. *)
Definition isWhiteSpace (c : N) : bool :=
  existsb (N.eqb c)
    [9; 10; 11; 12; 13; 32; 160; 5760; 8232; 8233; 8239; 8287; 12288; 65279]%N
  || (N.leb 8192 c && N.leb c 8202).

Fixpoint trimStart (s : jsstring) : jsstring :=
  match s with
  | [] => []
  | c :: s' => if isWhiteSpace c then trimStart s' else s
  end.

Definition trimEnd (s : jsstring) : jsstring := rev (trimStart (rev s)).

(** [s.trim()] *)
Definition trim (s : jsstring) : jsstring := trimEnd (trimStart s).

(** Truthiness of a string value: every string but the empty one. *)
Definition truthy (s : jsstring) : bool :=
  match s with [] => false | _ :: _ => true end.

(** [a || b] on strings. *)
Definition or_else (a b : jsstring) : jsstring := if truthy a then a else b.

(** Decimal rendering of an integral Number in a template literal. *)
Definition ofZ (z : Z) : jsstring := js (NilZero.string_of_int (Z.to_int z)).

(** A lower-casing that agrees with [String.prototype.toLowerCase] on ASCII
    text; used to instantiate the built-in on concrete inputs. *)
Definition asciiLower (s : jsstring) : jsstring :=
  map (fun c => if N.leb 65 c && N.leb c 90 then (c + 32)%N else c) s.

End JsString.
Import JsString.


(** ** The command table *)

(** One constructor per closure body of [initializeCommands]. *)
Inductive Action : Type :=
| Navigate (href : jsstring)          (* () => window.location.href = href *)
| StartQuickLesson
| NextConcept
| ShowProgress
| ShowStats
| GetAIHelp
| GetAIRecommendation
| GetStudyTips
| ZoomGraph (direction : jsstring)
| ResetGraph
| CenterGraph
| ExplainConcept (conceptId : jsstring)
| ShowHelp
| ShowCapabilities
| Disable.

(** The object literal returned by [initializeCommands], in definition
    order (the order in which [Object.entries] enumerates its keys: none of
    them is an array index). *)
Definition initializeCommands : list (jsstring * Action) :=
  [ (js "go to dashboard", Navigate (js "/"));
    (js "open dashboard", Navigate (js "/"));
    (js "show graph", Navigate (js "/graph"));
    (js "open graph", Navigate (js "/graph"));
    (js "show leaderboard", Navigate (js "/leaderboard"));
    (js "open leaderboard", Navigate (js "/leaderboard"));
    (js "start learning", StartQuickLesson);
    (js "next concept", NextConcept);
    (js "show progress", ShowProgress);
    (js "my stats", ShowStats);
    (js "ai help", GetAIHelp);
    (js "ai recommendation", GetAIRecommendation);
    (js "study tips", GetStudyTips);
    (js "zoom in", ZoomGraph (js "in"));
    (js "zoom out", ZoomGraph (js "out"));
    (js "reset graph", ResetGraph);
    (js "center graph", CenterGraph);
    (js "explain probability", ExplainConcept (js "probability"));
    (js "explain statistics", ExplainConcept (js "statistics"));
    (js "explain random variables", ExplainConcept (js "random_vars"));
    (js "help", ShowHelp);
    (js "what can you do", ShowCapabilities);
    (js "stop listening", Disable);
    (js "mute", Disable) ].

Definition keys (o : list (jsstring * Action)) : list jsstring := map fst o.

(** What calling a property inherited from [Object.prototype] with no
    argument does: return without any effect, or throw a [TypeError]. *)
Inductive Builtin : Type := ReturnsQuietly | ThrowsTypeError.

(** The properties every object literal inherits from [Object.prototype].
    All of them hold truthy values.  [__proto__] yields the prototype object,
    which is not callable; [__defineGetter__] and [__defineSetter__] reject an
    undefined accessor. *)
Definition Object_prototype : list (jsstring * Builtin) :=
  [ (js "constructor", ReturnsQuietly);
    (js "hasOwnProperty", ReturnsQuietly);
    (js "isPrototypeOf", ReturnsQuietly);
    (js "propertyIsEnumerable", ReturnsQuietly);
    (js "toLocaleString", ReturnsQuietly);
    (js "toString", ReturnsQuietly);
    (js "valueOf", ReturnsQuietly);
    (js "__lookupGetter__", ReturnsQuietly);
    (js "__lookupSetter__", ReturnsQuietly);
    (js "__defineGetter__", ThrowsTypeError);
    (js "__defineSetter__", ThrowsTypeError);
    (js "__proto__", ThrowsTypeError) ].

(** Association-list lookup: the first binding of [k]. *)
Fixpoint assoc {A : Type} (o : list (jsstring * A)) (k : jsstring) : option A :=
  match o with
  | [] => None
  | (k', v) :: o' => if eqb k k' then Some v else assoc o' k
  end.

(** The value of the property access [this.commands[command]]. *)
Inductive Property : Type :=
| Own (action : Action)
| Inherited (b : Builtin)
| Undefined.

Definition getProperty (o : list (jsstring * Action)) (k : jsstring) : Property :=
  match assoc o k with
  | Some a => Own a
  | None =>
      match assoc Object_prototype k with
      | Some b => Inherited b
      | None => Undefined
      end
  end.

(** The test of the partial-match loop:
    [command.includes(key) || key.includes(command)]. *)
Definition partialMatch (command : jsstring) (entry : jsstring * Action) : bool :=
  includes command (fst entry) || includes (fst entry) command.

(** ** Browser capabilities and engine state *)

Record Voice : Type := { voice_name : jsstring; voice_lang : jsstring }.

Record Utterance : Type := {
  text : jsstring;
  rate : Q;
  pitch : Q;
  volume : Q;
  voice : option Voice
}.

(** Callbacks handed to [setTimeout]. *)
Inductive Callback : Type :=
| RestartListening                 (* () => this.startListening() *)
| HideTranscript                   (* transcript.classList.remove('show') *)
| QuickLessonOrCourseList          (* body of the timer in startQuickLesson *)
| GoTo (href : jsstring).          (* window.location.href = href *)

(** The [then]/[catch] chain attached to a [fetch], named after the method
    that issued it. *)
Inductive Handler : Type :=
| NextConceptHandler
| ShowProgressHandler
| ShowStatsHandler
| AIHelpHandler.

Inductive PageFunction : Type := PageStartQuickLesson | PageResetGraph | PageCenterGraph.

Inductive Level : Type := LogLevel | WarnLevel | ErrorLevel.

(** Calls made to the outside, in program order. *)
Inductive Output : Type :=
| Console (level : Level) (message detail : jsstring)
| RecognitionStart
| RecognitionStop
| SynthesisCancel
| SynthesisSpeak (u : Utterance)
| LocationAssign (href : jsstring)
| PageCall (f : PageFunction)
| UncaughtTypeError.

(** The four states [updateVoiceUI] shows on the button. *)
Inductive Button : Type := NotSupported | ListeningNow | ReadyToListen | ClickToActivate.

(** What the page provides and the engine only reads. *)
Record Env : Type := {
  recognition : bool;            (* this.recognition is not null *)
  synthesis : bool;              (* window.speechSynthesis exists *)
  getVoices : list Voice;
  pathname : jsstring;           (* window.location.pathname *)
  has_startQuickLesson : bool;   (* typeof startQuickLesson === 'function' *)
  has_resetGraph : bool;
  has_centerGraph : bool;
  has_button : bool;             (* getElementById('voice-assistant-btn') *)
  has_transcript : bool;         (* getElementById('voice-transcript') *)
  random : nat -> Q              (* successive results of Math.random() *)
}.

Record World : Type := {
  isListening : bool;
  isEnabled : bool;
  capturing : bool;                        (* the recogniser has been started and has not ended *)
  queue : list Utterance;                  (* utterances held by the synthesiser *)
  timers : list (N * Callback);            (* pending setTimeout calls, with their delay in ms *)
  fetches : list (jsstring * Handler);     (* pending fetch calls, with their URL *)
  trace : list Output;
  button : option Button;
  transcript : option (jsstring * bool);   (* text shown and whether class 'show' is set *)
  draws : nat                              (* number of Math.random() calls so far *)
}.

(** The state the constructor leaves behind. *)
Definition initialWorld : World :=
  {| isListening := false; isEnabled := false; capturing := false; queue := [];
     timers := []; fetches := []; trace := []; button := None;
     transcript := None; draws := 0 |}.

Definition set_isListening (b : bool) (w : World) : World :=
  {| isListening := b; isEnabled := isEnabled w; capturing := capturing w;
     queue := queue w; timers := timers w; fetches := fetches w; trace := trace w;
     button := button w; transcript := transcript w; draws := draws w |}.

Definition set_isEnabled (b : bool) (w : World) : World :=
  {| isListening := isListening w; isEnabled := b; capturing := capturing w;
     queue := queue w; timers := timers w; fetches := fetches w; trace := trace w;
     button := button w; transcript := transcript w; draws := draws w |}.

Definition set_capturing (b : bool) (w : World) : World :=
  {| isListening := isListening w; isEnabled := isEnabled w; capturing := b;
     queue := queue w; timers := timers w; fetches := fetches w; trace := trace w;
     button := button w; transcript := transcript w; draws := draws w |}.

Definition set_queue (q : list Utterance) (w : World) : World :=
  {| isListening := isListening w; isEnabled := isEnabled w; capturing := capturing w;
     queue := q; timers := timers w; fetches := fetches w; trace := trace w;
     button := button w; transcript := transcript w; draws := draws w |}.

Definition set_timers (t : list (N * Callback)) (w : World) : World :=
  {| isListening := isListening w; isEnabled := isEnabled w; capturing := capturing w;
     queue := queue w; timers := t; fetches := fetches w; trace := trace w;
     button := button w; transcript := transcript w; draws := draws w |}.

Definition set_fetches (f : list (jsstring * Handler)) (w : World) : World :=
  {| isListening := isListening w; isEnabled := isEnabled w; capturing := capturing w;
     queue := queue w; timers := timers w; fetches := f; trace := trace w;
     button := button w; transcript := transcript w; draws := draws w |}.

Definition set_trace (t : list Output) (w : World) : World :=
  {| isListening := isListening w; isEnabled := isEnabled w; capturing := capturing w;
     queue := queue w; timers := timers w; fetches := fetches w; trace := t;
     button := button w; transcript := transcript w; draws := draws w |}.

Definition set_button (b : option Button) (w : World) : World :=
  {| isListening := isListening w; isEnabled := isEnabled w; capturing := capturing w;
     queue := queue w; timers := timers w; fetches := fetches w; trace := trace w;
     button := b; transcript := transcript w; draws := draws w |}.

Definition set_transcript (t : option (jsstring * bool)) (w : World) : World :=
  {| isListening := isListening w; isEnabled := isEnabled w; capturing := capturing w;
     queue := queue w; timers := timers w; fetches := fetches w; trace := trace w;
     button := button w; transcript := t; draws := draws w |}.

Definition set_draws (n : nat) (w : World) : World :=
  {| isListening := isListening w; isEnabled := isEnabled w; capturing := capturing w;
     queue := queue w; timers := timers w; fetches := fetches w; trace := trace w;
     button := button w; transcript := transcript w; draws := n |}.

(** Primitive effects. *)
Definition emit (o : Output) (w : World) : World := set_trace (trace w ++ [o]) w.

Definition setTimeout (cb : Callback) (ms : N) (w : World) : World :=
  set_timers (timers w ++ [(ms, cb)]) w.

Definition fetch (url : jsstring) (h : Handler) (w : World) : World :=
  set_fetches (fetches w ++ [(url, h)]) w.

(** [synthesis.cancel()] empties the synthesiser's queue, the utterance being
    spoken included; [synthesis.speak(u)] appends [u] to it. *)
Definition synthesis_cancel (w : World) : World :=
  emit SynthesisCancel (set_queue [] w).

Definition synthesis_speak (u : Utterance) (w : World) : World :=
  emit (SynthesisSpeak u) (set_queue (queue w ++ [u]) w).

(** ** Responses of the platform endpoints

    The JSON bodies are modelled by the shapes the handlers read, every field
    optional.  Counts are integers; the percentage is an exact rational. *)

Record Concept : Type := { concept_id : jsstring; concept_name : jsstring }.

Inductive Payload : Type :=
| LearningPath (concepts : option (list Concept))
| Progress (completed : option Z) (percentage : option Q)
| UserStats (level total_points current_streak : option Z)
| Recommendations (learning_style optimal_pace next_study_time : option jsstring).

(** How a [fetch(...).then(r => r.json())] chain settles.  [Rejected] stands
    for every rejection the trailing [catch] receives. *)
Inductive Outcome : Type := Rejected | Fulfilled (data : Payload).

(** [field || fallback] on an optional integer: [undefined] and [0] are falsy. *)
Definition int_or (field : option Z) (fallback : Z) : Z :=
  match field with
  | Some z => if Z.eqb z 0 then fallback else z
  | None => fallback
  end.

Definition num_or (field : option Q) (fallback : Q) : Q :=
  match field with
  | Some q => if Qeq_bool q 0 then fallback else q
  | None => fallback
  end.

Definition str_or (field : option jsstring) (fallback : jsstring) : jsstring :=
  match field with
  | Some s => or_else s fallback
  | None => fallback
  end.

(** [Math.round]: the nearest integer, ties towards positive infinity. *)
Definition Math_round (q : Q) : Z := Qfloor (q + (1 # 2)).

(** [Math.floor] *)
Definition Math_floor (q : Q) : Z := Qfloor q.

(** ** Speech recognition results *)

Record Alternative : Type := { alt_transcript : jsstring; confidence : Q }.

(** A [SpeechRecognitionResult]: at least one alternative, and a finality flag. *)
Record Result : Type := {
  best : Alternative;                 (* results[i][0] *)
  others : list Alternative;
  isFinal : bool
}.

Record SpeechEvent : Type := { resultIndex : nat; results : list Result }.

(** ** Methods of [VoiceAssistant] *)

Definition preferred (v : Voice) : bool :=
  includes (voice_name v) (js "Google")
  || includes (voice_name v) (js "Microsoft")
  || startsWith (voice_lang v) (js "en").

(** The utterance [speak] builds for [message]. *)
Definition utterance (env : Env) (message : jsstring) : Utterance :=
  {| text := message; rate := 9 # 10; pitch := 1; volume := 8 # 10;
     voice := find preferred (getVoices env) |}.

Definition speak (env : Env) (message : jsstring) (w : World) : World :=
  if synthesis env then
    synthesis_speak (utterance env message) (synthesis_cancel w)
  else w.

Definition updateVoiceUI (env : Env) (w : World) : World :=
  if negb (has_button env) then w
  else
    set_button
      (Some (if negb (recognition env) then NotSupported
             else if isListening w then ListeningNow
             else if isEnabled w then ReadyToListen
             else ClickToActivate)) w.

(** [recognition.start()] throws when the recogniser is already started; the
    exception is caught and logged. *)
Definition startListening (env : Env) (w : World) : World :=
  if recognition env && isEnabled w && negb (isListening w) then
    if capturing w then
      emit (Console ErrorLevel (js "Error starting speech recognition:")
                    (js "InvalidStateError")) w
    else emit RecognitionStart (set_capturing true w)
  else w.

Definition stopListening (env : Env) (w : World) : World :=
  if recognition env && isListening w then emit RecognitionStop w else w.

Definition enable (env : Env) (w : World) : World :=
  updateVoiceUI env
    (speak env (js "Voice assistant activated. How can I help you learn?")
       (startListening env (set_isEnabled true w))).

Definition disable (env : Env) (w : World) : World :=
  updateVoiceUI env
    (speak env (js "Voice assistant deactivated.")
       (stopListening env (set_isEnabled false w))).

Definition toggle (env : Env) (w : World) : World :=
  if negb (recognition env) then
    speak env (js "Sorry, voice recognition is not supported in your browser.") w
  else if isEnabled w then disable env w
  else enable env w.

Definition showTranscript (env : Env) (shown : jsstring) (w : World) : World :=
  if has_transcript env then
    setTimeout HideTranscript 3000 (set_transcript (Some (shown, true)) w)
  else w.

(** *** Command implementations *)

Definition startQuickLesson (env : Env) (w : World) : World :=
  setTimeout QuickLessonOrCourseList 1000
    (speak env (js "Starting your next recommended lesson!") w).

Definition nextConcept (env : Env) (w : World) : World :=
  fetch (js "/api/adaptive-learning-path") NextConceptHandler
    (speak env (js "Finding your next concept to learn!") w).

Definition showProgress (env : Env) (w : World) : World :=
  fetch (js "/api/progress") ShowProgressHandler
    (speak env (js "Let me check your progress!") w).

Definition showStats (env : Env) (w : World) : World :=
  fetch (js "/api/user-stats") ShowStatsHandler
    (speak env (js "Checking your learning statistics!") w).

Definition getAIHelp (env : Env) (w : World) : World :=
  fetch (js "/api/ai-recommendations") AIHelpHandler
    (speak env (js "Getting AI recommendations for you!") w).

Definition getAIRecommendation (env : Env) (w : World) : World := getAIHelp env w.

Definition tips : list jsstring :=
  [ js "Take regular breaks every 25 minutes using the Pomodoro technique.";
    js "Create visual mind maps to connect related concepts.";
    js "Practice active recall by explaining concepts out loud.";
    js "Use spaced repetition to review concepts at increasing intervals.";
    js "Join study groups to learn collaboratively." ].

Definition getStudyTips (env : Env) (w : World) : World :=
  let r := random env (draws w) in
  let randomTip :=
    match Math_floor (r * inject_Z (Z.of_nat (List.length tips))) with
    | Zneg _ => js "undefined"
    | i => nth (Z.to_nat i) tips (js "undefined")
    end in
  speak env (js "Here's a study tip: " ++ randomTip) (set_draws (S (draws w)) w).

Definition explainConcept (env : Env) (conceptId : jsstring) (w : World) : World :=
  setTimeout (GoTo (js "/course/concept/" ++ conceptId)) 1500
    (speak env (js "Let me explain that concept for you!") w).

Definition zoomGraph (env : Env) (direction : jsstring) (w : World) : World :=
  if eqb (pathname env) (js "/graph") then
    speak env (js "Zooming " ++ direction ++ js " on the knowledge graph!") w
  else speak env (js "Please open the knowledge graph first to use zoom commands.") w.

Definition resetGraph (env : Env) (w : World) : World :=
  if eqb (pathname env) (js "/graph") && has_resetGraph env then
    emit (PageCall PageResetGraph) (speak env (js "Resetting the knowledge graph view!") w)
  else speak env (js "Please open the knowledge graph to reset the view.") w.

Definition centerGraph (env : Env) (w : World) : World :=
  if eqb (pathname env) (js "/graph") && has_centerGraph env then
    emit (PageCall PageCenterGraph) (speak env (js "Centering the knowledge graph!") w)
  else speak env (js "Please open the knowledge graph to center the view.") w.

(** The double quote character, and a quoted phrase inside a message. *)
Definition dquote : jsstring := [34%N].

Definition quoted (phrase : string) : jsstring := dquote ++ js phrase ++ dquote.

Definition helpMessage : jsstring :=
  js "I can help you navigate and learn! Try saying: "
  ++ quoted "start learning" ++ js ", " ++ quoted "show progress" ++ js ", "
  ++ quoted "next concept" ++ js ", " ++ quoted "AI help" ++ js ", "
  ++ quoted "show graph" ++ js ", " ++ quoted "go to dashboard" ++ js ", or "
  ++ quoted "show leaderboard" ++ js ". Say " ++ quoted "what can you do"
  ++ js " for more options.".

Definition showHelp (env : Env) (w : World) : World := speak env helpMessage w.

Definition showCapabilities (env : Env) (w : World) : World :=
  speak env
    (js "I can help you with navigation, learning commands, AI assistance, graph controls, and progress tracking. I can also explain concepts, provide study tips, and give you personalized recommendations. Just speak naturally and I'll do my best to help!")
    w.

(** Calling the closure stored under a key of the command table. *)
Definition invoke (env : Env) (a : Action) (w : World) : World :=
  match a with
  | Navigate href => emit (LocationAssign href) w
  | StartQuickLesson => startQuickLesson env w
  | NextConcept => nextConcept env w
  | ShowProgress => showProgress env w
  | ShowStats => showStats env w
  | GetAIHelp => getAIHelp env w
  | GetAIRecommendation => getAIRecommendation env w
  | GetStudyTips => getStudyTips env w
  | ZoomGraph direction => zoomGraph env direction w
  | ResetGraph => resetGraph env w
  | CenterGraph => centerGraph env w
  | ExplainConcept conceptId => explainConcept env conceptId w
  | ShowHelp => showHelp env w
  | ShowCapabilities => showCapabilities env w
  | Disable => disable env w
  end.

(** Calling a property inherited from [Object.prototype].  A [TypeError]
    leaves [processCommand] and is reported as uncaught; nothing follows the
    call in any caller. *)
Definition call_builtin (b : Builtin) (w : World) : World :=
  match b with
  | ReturnsQuietly => w
  | ThrowsTypeError => emit UncaughtTypeError w
  end.

(** *** The matcher *)

Definition learningSuggestion : jsstring :=
  js "I can help you learn! Try saying " ++ quoted "start learning"
  ++ js " or " ++ quoted "next concept" ++ js ".".

Definition apology : jsstring :=
  js "I didn't understand that command. Say " ++ quoted "help"
  ++ js " to see what I can do.".

Definition handleUnknownCommand (env : Env) (command : jsstring) (w : World) : World :=
  if includes command (js "concept") || includes command (js "learn") then
    speak env learningSuggestion w
  else if includes command (js "help") then
    showHelp env w
  else
    speak env apology w.

Definition processCommand (env : Env) (command : jsstring) (w : World) : World :=
  let w := emit (Console LogLevel (js "Processing command:") command) w in
  (* Check for exact matches first *)
  match getProperty initializeCommands command with
  | Own action => invoke env action w
  | Inherited b => call_builtin b w
  | Undefined =>
      (* Check for partial matches *)
      match find (partialMatch command) initializeCommands with
      | Some (_, action) => invoke env action w
      | None =>
          (* If no command found, try to be helpful *)
          handleUnknownCommand env command w
      end
  end.

(** The tier of [processCommand] that handles a phrase. *)
Inductive Tier : Type :=
| ExactTier (action : Action)
| InheritedProperty (b : Builtin)
| PartialTier (key : jsstring) (action : Action)
| UnknownTier.

Definition tier (command : jsstring) : Tier :=
  match getProperty initializeCommands command with
  | Own action => ExactTier action
  | Inherited b => InheritedProperty b
  | Undefined =>
      match find (partialMatch command) initializeCommands with
      | Some (key, action) => PartialTier key action
      | None => UnknownTier
      end
  end.

(** The branch of [handleUnknownCommand] a phrase takes. *)
Inductive Fallback : Type := LearningHint | HelpBranch | Apology.

Definition fallback (command : jsstring) : Fallback :=
  if includes command (js "concept") || includes command (js "learn") then LearningHint
  else if includes command (js "help") then HelpBranch
  else Apology.

(** *** Settling fetches and firing timers *)

Definition onNextConcept (env : Env) (o : Outcome) (w : World) : World :=
  match o with
  | Fulfilled data =>
      match data with
      | LearningPath (Some (next :: _)) =>
          setTimeout (GoTo (js "/course/concept/" ++ concept_id next)) 2000
            (speak env
               (js "Your next concept is " ++ concept_name next ++ js ". Opening it now!") w)
      | _ => speak env (js "Great job! You've completed all available concepts.") w
      end
  | Rejected => speak env (js "Sorry, I couldn't find your next concept right now.") w
  end.

Definition progressMessage (completed : option Z) (percentage : option Q) : jsstring :=
  js "You've completed " ++ ofZ (int_or completed 0) ++ js " concepts with "
  ++ ofZ (Math_round (num_or percentage 0))
  ++ js "% overall progress. Keep up the great work!".

Definition onProgress (env : Env) (o : Outcome) (w : World) : World :=
  match o with
  | Fulfilled data =>
      match data with
      | Progress completed percentage => speak env (progressMessage completed percentage) w
      | _ => speak env (progressMessage None None) w
      end
  | Rejected => speak env (js "Sorry, I couldn't load your progress right now.") w
  end.

Definition statsMessage (level total_points current_streak : option Z) : jsstring :=
  js "You're level " ++ ofZ (int_or level 1) ++ js " with "
  ++ ofZ (int_or total_points 0) ++ js " experience points. You have a "
  ++ ofZ (int_or current_streak 0) ++ js " day learning streak!".

Definition onStats (env : Env) (o : Outcome) (w : World) : World :=
  match o with
  | Fulfilled data =>
      match data with
      | UserStats level total_points current_streak =>
          speak env (statsMessage level total_points current_streak) w
      | _ => speak env (statsMessage None None None) w
      end
  | Rejected => speak env (js "Sorry, I couldn't load your stats right now.") w
  end.

Definition aiMessage (learning_style optimal_pace next_study_time : option jsstring) : jsstring :=
  js "Based on your " ++ str_or learning_style (js "visual")
  ++ js " learning style, I recommend studying at a " ++ str_or optimal_pace (js "moderate")
  ++ js " pace. Your next optimal study time is " ++ str_or next_study_time (js "now")
  ++ js "!".

Definition onAIHelp (env : Env) (o : Outcome) (w : World) : World :=
  match o with
  | Fulfilled data =>
      match data with
      | Recommendations learning_style optimal_pace next_study_time =>
          speak env (aiMessage learning_style optimal_pace next_study_time) w
      | _ => speak env (aiMessage None None None) w
      end
  | Rejected =>
      speak env (js "AI recommendations are being prepared. Please try again in a moment.") w
  end.

Definition settle (env : Env) (h : Handler) (o : Outcome) (w : World) : World :=
  match h with
  | NextConceptHandler => onNextConcept env o w
  | ShowProgressHandler => onProgress env o w
  | ShowStatsHandler => onStats env o w
  | AIHelpHandler => onAIHelp env o w
  end.

Definition runCallback (env : Env) (cb : Callback) (w : World) : World :=
  match cb with
  | RestartListening => startListening env w
  | HideTranscript =>
      set_transcript
        (match transcript w with
         | Some (shown, _) => Some (shown, false)
         | None => None
         end) w
  | QuickLessonOrCourseList =>
      if has_startQuickLesson env then emit (PageCall PageStartQuickLesson) w
      else emit (LocationAssign (js "/course/list")) w
  | GoTo href => emit (LocationAssign href) w
  end.

(** *** Recognition life cycle *)

Definition onstart (env : Env) (w : World) : World :=
  emit (Console LogLevel (js "Voice recognition started") [])
    (updateVoiceUI env (set_isListening true w)).

(** The recogniser has ended when [onend] runs. *)
Definition onend (env : Env) (w : World) : World :=
  let w := updateVoiceUI env (set_isListening false (set_capturing false w)) in
  if isEnabled w then
    (* Restart recognition if still enabled *)
    setTimeout RestartListening 1000 w
  else w.

Definition onerror (env : Env) (error : jsstring) (w : World) : World :=
  speak env (js "Sorry, I had trouble understanding. Please try again.")
    (emit (Console ErrorLevel (js "Speech recognition error:") error) w).

(** *** Result batches *)

(** One iteration of the loop of [handleSpeechResult], on the pair
    [(finalTranscript, interimTranscript)]. *)
Definition accumulate (acc : jsstring * jsstring) (r : Result) : jsstring * jsstring :=
  let (finalTranscript, interimTranscript) := acc in
  if isFinal r then (finalTranscript ++ alt_transcript (best r), interimTranscript)
  else (finalTranscript, interimTranscript ++ alt_transcript (best r)).

(** The loop [for (let i = event.resultIndex; i < event.results.length; i++)]. *)
Definition transcripts (event : SpeechEvent) : jsstring * jsstring :=
  fold_left accumulate (skipn (resultIndex event) (results event)) ([], []).

Section Engine.

(** [String.prototype.toLowerCase], a built-in of the JavaScript engine. *)
Variable toLowerCase : jsstring -> jsstring.

Definition normalize (s : jsstring) : jsstring := trim (toLowerCase s).

Definition handleSpeechResult (env : Env) (event : SpeechEvent) (w : World) : World :=
  let (finalTranscript, interimTranscript) := transcripts event in
  (* Show transcript *)
  let w := showTranscript env (or_else interimTranscript finalTranscript) w in
  if truthy finalTranscript then
    processCommand env (trim (toLowerCase finalTranscript)) w
  else w.

(** The argument of the call to [processCommand] made by
    [handleSpeechResult], if it makes one. *)
Definition dispatched (event : SpeechEvent) : option jsstring :=
  let finalTranscript := fst (transcripts event) in
  if truthy finalTranscript then Some (trim (toLowerCase finalTranscript)) else None.

(** What the one event queue of the page delivers to the engine. *)
Inductive Event : Type :=
| Toggle                                  (* click on the button, or Ctrl/Cmd+Shift+V *)
| RecognitionStarted
| RecognitionEnded
| RecognitionError (error : jsstring)
| RecognitionResult (event : SpeechEvent)
| TimerFires (n : nat)                    (* the n-th pending timer *)
| FetchSettles (n : nat) (o : Outcome).   (* the n-th pending fetch *)

Fixpoint remove_nth {A : Type} (n : nat) (l : list A) : list A :=
  match n, l with
  | _, [] => []
  | O, _ :: l' => l'
  | S n', x :: l' => x :: remove_nth n' l'
  end.

Definition step (env : Env) (e : Event) (w : World) : World :=
  match e with
  | Toggle => toggle env w
  | RecognitionStarted => onstart env w
  | RecognitionEnded => onend env w
  | RecognitionError error => onerror env error w
  | RecognitionResult event => handleSpeechResult env event w
  | TimerFires n =>
      match nth_error (timers w) n with
      | Some (_, cb) => runCallback env cb (set_timers (remove_nth n (timers w)) w)
      | None => w
      end
  | FetchSettles n o =>
      match nth_error (fetches w) n with
      | Some (_, h) => settle env h o (set_fetches (remove_nth n (fetches w)) w)
      | None => w
      end
  end.

Definition run (env : Env) (events : list Event) (w : World) : World :=
  fold_left (fun w e => step env e w) events w.

End Engine.

(** ** Observations on a trace *)

Definition is_navigation (o : Output) : bool :=
  match o with LocationAssign _ => true | _ => false end.

Definition navigations (w : World) : list Output := filter is_navigation (trace w).

Definition is_speech (o : Output) : option jsstring :=
  match o with SynthesisSpeak u => Some (text u) | _ => None end.

(** The texts submitted to the synthesiser, oldest first. *)
Fixpoint spoken (t : list Output) : list jsstring :=
  match t with
  | [] => []
  | o :: t' =>
      match is_speech o with
      | Some s => s :: spoken t'
      | None => spoken t'
      end
  end.

Definition is_request (o : Output) : bool :=
  match o with RecognitionStart | RecognitionStop => true | _ => false end.

(** The start and stop requests made to the recogniser, oldest first. *)
Definition requests (w : World) : list Output := filter is_request (trace w).

(** A page with every capability and element present, standing on the
    dashboard. *)
Definition samplePage : Env :=
  {| recognition := true; synthesis := true;
     getVoices := [ {| voice_name := js "Google US English"; voice_lang := js "en-US" |} ];
     pathname := js "/"; has_startQuickLesson := false; has_resetGraph := false;
     has_centerGraph := false; has_button := true; has_transcript := true;
     random := fun _ => 0 |}.

Definition final_result (s : string) : Result :=
  {| best := {| alt_transcript := js s; confidence := 9 # 10 |}; others := []; isFinal := true |}.

Definition interim_result (s : string) : Result :=
  {| best := {| alt_transcript := js s; confidence := 3 # 10 |}; others := []; isFinal := false |}.

(** The text of the final results of a batch, from [resultIndex] on, in
    event order. *)
Definition finalText (event : SpeechEvent) : jsstring :=
  List.concat (map (fun r => alt_transcript (best r))
              (filter isFinal (skipn (resultIndex event) (results event)))).

Definition interimText (event : SpeechEvent) : jsstring :=
  List.concat (map (fun r => alt_transcript (best r))
              (filter (fun r => negb (isFinal r)) (skipn (resultIndex event) (results event)))).

(** Two results that are the same, or are both interim hypotheses. *)
Definition differ_only_in_interim (r1 r2 : Result) : Prop :=
  r1 = r2 \/ (isFinal r1 = false /\ isFinal r2 = false).

(** A batch that holds one final result made of three spaces. *)
Definition blankBatch : SpeechEvent :=
  {| resultIndex := 0; results := [final_result "   "] |}.

(** The state [updateVoiceUI] derives from the three flags. *)
Definition buttonFor (env : Env) (w : World) : Button :=
  if negb (recognition env) then NotSupported
  else if isListening w then ListeningNow
  else if isEnabled w then ReadyToListen
  else ClickToActivate.

(** The button shows what the flags say. *)
Definition button_fresh (env : Env) (w : World) : Prop :=
  button w = Some (buttonFor env w).

Definition is_page_call (o : Output) : bool :=
  match o with PageCall _ => true | _ => false end.

(** The calls made to functions of the page, oldest first. *)
Definition pageCalls (w : World) : list Output := filter is_page_call (trace w).

(** ** Helpers of [app.js] *)

(** [LearningPlatform.formatDuration], on an integral number of minutes.
    [Math.floor(minutes / 60)] is the floor quotient and [%] the truncated
    remainder. *)
Definition formatDuration (minutes : Z) : jsstring :=
  if Z.ltb minutes 60 then ofZ minutes ++ js " min"
  else
    let hours := Z.div minutes 60 in
    let mins := Z.rem minutes 60 in
    if Z.ltb 0 mins then ofZ hours ++ js "h " ++ ofZ mins ++ js "m"
    else ofZ hours ++ js "h".

Definition is_disable (a : Action) : bool :=
  match a with Disable => true | _ => false end.

(** Whether [processCommand] resolves a phrase to the [disable] action. *)
Definition resolves_to_disable (command : jsstring) : bool :=
  match tier command with
  | ExactTier a => is_disable a
  | PartialTier _ a => is_disable a
  | _ => false
  end.

(** A change that leaves the flags, the button and the transcript display
    alone, and leaves the synthesiser's queue as it was or holding a single
    utterance. *)
Definition effects_only (w w' : World) : Prop :=
  isEnabled w' = isEnabled w /\ isListening w' = isListening w /\
  button w' = button w /\ transcript w' = transcript w /\
  (queue w' = queue w \/ exists u, queue w' = [u]).

Definition is_toggle (e : Event) : bool :=
  match e with Toggle => true | _ => false end.

(** The resize handler of [app.js]: [resizeTimeout] holds the id of the last
    timer it set; [setTimeout] hands out fresh ids and [clearTimeout] drops a
    pending timer, or does nothing for an id that is not pending or is
    [undefined]. *)
Record Resizer : Type := {
  resizeTimeout : option nat;
  pendingRenders : list nat;          (* ids of the render timers still pending *)
  nextTimerId : nat
}.

Definition clearTimeout (id : option nat) (pending : list nat) : list nat :=
  match id with
  | Some i => filter (fun j => negb (Nat.eqb i j)) pending
  | None => pending
  end.

Definition onresize (r : Resizer) : Resizer :=
  {| resizeTimeout := Some (nextTimerId r);
     pendingRenders := clearTimeout (resizeTimeout r) (pendingRenders r) ++ [nextTimerId r];
     nextTimerId := S (nextTimerId r) |}.

(** A pending render timer fires, 250 ms after it was set. *)
Definition renderFires (id : nat) (r : Resizer) : Resizer :=
  {| resizeTimeout := resizeTimeout r;
     pendingRenders := filter (fun j => negb (Nat.eqb id j)) (pendingRenders r);
     nextTimerId := nextTimerId r |}.

Inductive ResizeEvent : Type := Resized | RenderFired (id : nat).

Definition resizeStep (r : Resizer) (e : ResizeEvent) : Resizer :=
  match e with
  | Resized => onresize r
  | RenderFired id => renderFires id r
  end.

Definition pageLoaded : Resizer :=
  {| resizeTimeout := None; pendingRenders := []; nextTimerId := 0 |}.

(** * Properties *)

Arguments js : simpl never.

(** ** Strings *)

Lemma eqb_eq (s t : jsstring) : eqb s t = true <-> s = t.
Proof.
  revert t; induction s as [|c s IH]; intros [|d t]; simpl; split;
    try reflexivity; try discriminate.
  - intros H. apply andb_true_iff in H as [Hc Hs].
    apply N.eqb_eq in Hc. apply IH in Hs. subst. reflexivity.
  - intros H. injection H as -> ->.
    rewrite N.eqb_refl. simpl. apply IH. reflexivity.
Qed.

Lemma eqb_refl (s : jsstring) : eqb s s = true.
Proof. apply eqb_eq. reflexivity. Qed.

Lemma startsWith_spec (s t : jsstring) :
  startsWith s t = true <-> exists rest, s = t ++ rest.
Proof.
  revert s; induction t as [|d t IH]; intros s; simpl.
  - split; [intros _; exists s; reflexivity | intros _; destruct s; reflexivity].
  - destruct s as [|c s]; simpl.
    + split; [discriminate | intros [rest H]; discriminate].
    + rewrite andb_true_iff, N.eqb_eq, IH. split.
      * intros [-> [rest ->]]. exists rest. reflexivity.
      * intros [rest H]. injection H as -> ->. split; [reflexivity | exists rest; reflexivity].
Qed.

(** [includes] is the substring relation. *)
Lemma includes_spec (s t : jsstring) :
  includes s t = true <-> exists before after, s = before ++ t ++ after.
Proof.
  induction s as [|c s IH].
  - assert (E : includes [] t = startsWith [] t)
      by (destruct t; reflexivity).
    rewrite E, startsWith_spec. split.
    + intros [rest H]. exists [], rest. exact H.
    + intros [[|b before] [after H]]; [exists after; exact H | discriminate].
  - assert (E : includes (c :: s) t = startsWith (c :: s) t || includes s t)
      by (destruct t; reflexivity).
    rewrite E, orb_true_iff, startsWith_spec, IH. split.
    + intros [[rest H] | [before [after H]]].
      * exists [], rest. exact H.
      * exists (c :: before), after. rewrite H. reflexivity.
    + intros [[|b before] [after H]].
      * left. exists after. exact H.
      * right. injection H as _ H. exists before, after. exact H.
Qed.

Lemma includes_empty (s : jsstring) : includes s [] = true.
Proof. apply includes_spec. exists [], s. reflexivity. Qed.

Lemma trimStart_whitespace (s : jsstring) :
  forallb isWhiteSpace s = true -> trimStart s = [].
Proof.
  induction s as [|c s IH]; simpl; [reflexivity|].
  intros H. apply andb_true_iff in H as [Hc Hs]. rewrite Hc. apply IH, Hs.
Qed.

(** A string of white space trims to the empty string. *)
Lemma trim_whitespace (s : jsstring) : forallb isWhiteSpace s = true -> trim s = [].
Proof. intros H. unfold trim. rewrite (trimStart_whitespace s H). reflexivity. Qed.

(** ** Association lists and [find] *)

Lemma assoc_Some_In {A : Type} (o : list (jsstring * A)) k v :
  assoc o k = Some v -> In (k, v) o.
Proof.
  induction o as [|[k' v'] o IH]; simpl; [discriminate|].
  destruct (eqb k k') eqn:E.
  - intros H. injection H as ->. apply eqb_eq in E. subst. left. reflexivity.
  - intros H. right. apply IH, H.
Qed.

Lemma assoc_None_iff {A : Type} (o : list (jsstring * A)) k :
  assoc o k = None <-> ~ In k (map fst o).
Proof.
  induction o as [|[k' v'] o IH]; simpl.
  - split; [intros _ [] | reflexivity].
  - destruct (eqb k k') eqn:E.
    + apply eqb_eq in E. subst. split; [discriminate | intros H; exfalso; apply H; left; reflexivity].
    + rewrite IH. split.
      * intros H [H1 | H1]; [subst; rewrite eqb_refl in E; discriminate | exact (H H1)].
      * intros H H1. apply H. right. exact H1.
Qed.

Lemma assoc_In_NoDup {A : Type} (o : list (jsstring * A)) k v :
  NoDup (map fst o) -> In (k, v) o -> assoc o k = Some v.
Proof.
  induction o as [|[k' v'] o IH]; simpl; [intros _ []|].
  intros Hnd Hin. inversion Hnd as [|? ? Hnot Hnd']; subst.
  destruct Hin as [Heq | Hin].
  - injection Heq as -> ->. rewrite eqb_refl. reflexivity.
  - destruct (eqb k k') eqn:E.
    + apply eqb_eq in E. subst. exfalso. apply Hnot.
      apply (in_map fst) in Hin. exact Hin.
    + apply IH; assumption.
Qed.

(** [find] returns the first element that passes the test. *)
Lemma find_first {A : Type} (f : A -> bool) (l : list A) x :
  find f l = Some x ->
  exists before after,
    l = before ++ x :: after /\ f x = true /\ forall y, In y before -> f y = false.
Proof.
  induction l as [|y l IH]; simpl; [discriminate|].
  destruct (f y) eqn:E.
  - intros H. injection H as ->. exists [], l. repeat split; [exact E | intros ? []].
  - intros H. destruct (IH H) as (before & after & -> & Hx & Hb).
    exists (y :: before), after. repeat split; [exact Hx|].
    intros z [<- | Hz]; [exact E | apply Hb, Hz].
Qed.

Lemma find_None_iff {A : Type} (f : A -> bool) (l : list A) :
  find f l = None <-> forall y, In y l -> f y = false.
Proof.
  split; [apply find_none|].
  induction l as [|y l IH]; simpl; [reflexivity|].
  intros H. rewrite (H y (or_introl eq_refl)). apply IH.
  intros z Hz. apply H. right. exact Hz.
Qed.

(** ** The command table *)

Lemma keys_NoDup : NoDup (keys initializeCommands).
Proof.
  apply (NoDup_count_occ' (list_eq_dec N.eq_dec)).
  intros k Hk. vm_compute in Hk.
  repeat (destruct Hk as [<- | Hk]; [vm_compute; reflexivity|]). destruct Hk.
Qed.

(** No name inherited from [Object.prototype] contains a key of the table or
    is contained in one. *)
Lemma inherited_names_match_no_key :
  forallb (fun name => forallb (fun entry => negb (partialMatch name entry)) initializeCommands)
          (map fst Object_prototype) = true.
Proof. vm_compute. reflexivity. Qed.

Lemma partial_match_not_inherited (command : jsstring) (entry : jsstring * Action) :
  In entry initializeCommands -> partialMatch command entry = true ->
  assoc Object_prototype command = None.
Proof.
  intros Hin Hm. destruct (assoc Object_prototype command) as [b|] eqn:E; [|reflexivity].
  exfalso. apply assoc_Some_In in E. apply (in_map fst) in E. simpl in E.
  pose proof inherited_names_match_no_key as H.
  rewrite forallb_forall in H. specialize (H _ E).
  rewrite forallb_forall in H. specialize (H _ Hin).
  rewrite Hm in H. discriminate.
Qed.

(** [tier] names the branch [processCommand] takes. *)
Lemma processCommand_tier (env : Env) (command : jsstring) (w : World) :
  processCommand env command w =
  let w' := emit (Console LogLevel (js "Processing command:") command) w in
  match tier command with
  | ExactTier action => invoke env action w'
  | InheritedProperty b => call_builtin b w'
  | PartialTier _ action => invoke env action w'
  | UnknownTier => handleUnknownCommand env command w'
  end.
Proof.
  unfold processCommand, tier.
  destruct (getProperty initializeCommands command); try reflexivity.
  destruct (find (partialMatch command) initializeCommands) as [[key action]|]; reflexivity.
Qed.

(** [fallback] names the branch [handleUnknownCommand] takes. *)
Lemma handleUnknownCommand_fallback (env : Env) (command : jsstring) (w : World) :
  handleUnknownCommand env command w =
  match fallback command with
  | LearningHint => speak env learningSuggestion w
  | HelpBranch => showHelp env w
  | Apology => speak env apology w
  end.
Proof.
  unfold handleUnknownCommand, fallback.
  destruct (includes command (js "concept") || includes command (js "learn"));
    [reflexivity|].
  destruct (includes command (js "help")); reflexivity.
Qed.

Example filler_words_around_a_command :
  tier (js "please go to dashboard now") = PartialTier (js "go to dashboard") (Navigate (js "/")).
Proof. vm_compute. reflexivity. Qed.

(** The first entry in table order wins, also over a longer, more specific
    one. *)
Example first_entry_wins :
  tier (js "graph") = PartialTier (js "show graph") (Navigate (js "/graph")) /\
  tier (js "i need ai help") = PartialTier (js "ai help") GetAIHelp /\
  tier (js "in") = PartialTier (js "start learning") StartQuickLesson.
Proof. repeat split; vm_compute; reflexivity. Qed.

Example unknown_phrases :
  tier (js "banana") = UnknownTier /\ fallback (js "banana") = Apology /\
  tier (js "teach me something") = UnknownTier /\
  tier (js "i want to learn") = UnknownTier /\ fallback (js "i want to learn") = LearningHint.
Proof. repeat split; vm_compute; reflexivity. Qed.

(** The exact lookup succeeds on every key of the table, with its own action. *)
Lemma getProperty_key (k : jsstring) (a : Action) :
  In (k, a) initializeCommands -> getProperty initializeCommands k = Own a.
Proof.
  intros Hin. unfold getProperty.
  rewrite (assoc_In_NoDup initializeCommands k a keys_NoDup Hin). reflexivity.
Qed.

(** The exact lookup is undefined on a phrase that is no key but matches one
    partially. *)
Lemma getProperty_partial (command : jsstring) (entry : jsstring * Action) :
  ~ In command (keys initializeCommands) ->
  In entry initializeCommands -> partialMatch command entry = true ->
  getProperty initializeCommands command = Undefined.
Proof.
  intros Hk Hin Hm. unfold getProperty.
  apply assoc_None_iff in Hk. rewrite Hk.
  rewrite (partial_match_not_inherited command entry Hin Hm). reflexivity.
Qed.

(** C1. A phrase that, lower-cased and trimmed, equals a key of the command
    table is handled by the exact tier: [processCommand] logs the phrase and
    invokes the action stored under that key, and nothing else. *)
Theorem exact_match_invokes_its_action
    (toLowerCase : jsstring -> jsstring) (env : Env) (w : World)
    (p k : jsstring) (a : Action) :
  In (k, a) initializeCommands ->
  normalize toLowerCase p = k ->
  tier (normalize toLowerCase p) = ExactTier a /\
  processCommand env (normalize toLowerCase p) w =
    invoke env a (emit (Console LogLevel (js "Processing command:") k) w).
Proof.
  intros Hin ->. pose proof (getProperty_key _ _ Hin) as Hget. split.
  - unfold tier. rewrite Hget. reflexivity.
  - unfold processCommand. rewrite Hget. reflexivity.
Qed.

Lemma exact_match_invokes_its_action_witness :
  In (js "show graph", Navigate (js "/graph")) initializeCommands /\
  normalize asciiLower (js "  Show Graph ") = js "show graph" /\
  processCommand samplePage (normalize asciiLower (js "  Show Graph ")) initialWorld =
    invoke samplePage (Navigate (js "/graph"))
      (emit (Console LogLevel (js "Processing command:") (js "show graph")) initialWorld).
Proof.
  assert (Hin : In (js "show graph", Navigate (js "/graph")) initializeCommands)
    by (vm_compute; tauto).
  assert (Hn : normalize asciiLower (js "  Show Graph ") = js "show graph")
    by (vm_compute; reflexivity).
  split; [exact Hin | split; [exact Hn|]].
  exact (proj2 (exact_match_invokes_its_action asciiLower samplePage initialWorld
                  (js "  Show Graph ") (js "show graph") (Navigate (js "/graph"))
                  Hin Hn)).
Defined.

(** C2. A phrase that is no key of the table, but contains some key or is
    contained in one, is handled by the partial tier: [processCommand]
    invokes the action of the first entry, in definition order, that the
    phrase contains or is contained in. *)
Theorem partial_match_first_in_table_order (env : Env) (w : World) (p : jsstring) :
  ~ In p (keys initializeCommands) ->
  (exists k, In k (keys initializeCommands) /\
             (includes k p = true \/ includes p k = true)) ->
  exists before k a after,
    initializeCommands = before ++ (k, a) :: after /\
    (includes k p = true \/ includes p k = true) /\
    (forall k', In k' (keys before) -> includes k' p = false /\ includes p k' = false) /\
    tier p = PartialTier k a /\
    processCommand env p w =
      invoke env a (emit (Console LogLevel (js "Processing command:") p) w).
Proof.
  intros Hnk (k0 & Hk0 & Hrel).
  apply in_map_iff in Hk0 as ([k0' a0] & Hfst & Hin0). simpl in Hfst. subst k0'.
  assert (Hm0 : partialMatch p (k0, a0) = true).
  { unfold partialMatch. simpl. apply orb_true_iff. tauto. }
  pose proof (getProperty_partial p (k0, a0) Hnk Hin0 Hm0) as Hget.
  destruct (find (partialMatch p) initializeCommands) as [[k a]|] eqn:Hfind.
  - destruct (find_first _ _ _ Hfind) as (before & after & Hsplit & Hm & Hfirst).
    exists before, k, a, after. split; [exact Hsplit|]. split.
    { unfold partialMatch in Hm. simpl in Hm. apply orb_true_iff in Hm. tauto. }
    split.
    { intros k' Hk'. apply in_map_iff in Hk' as ([k'' a'] & Hk'' & Hin'). simpl in Hk''. subst k''.
      specialize (Hfirst _ Hin'). unfold partialMatch in Hfirst. simpl in Hfirst.
      apply orb_false_iff in Hfirst. tauto. }
    split.
    + unfold tier. rewrite Hget, Hfind. reflexivity.
    + unfold processCommand. rewrite Hget, Hfind. reflexivity.
  - exfalso. rewrite find_None_iff in Hfind. rewrite (Hfind _ Hin0) in Hm0. discriminate Hm0.
Qed.

Lemma partial_match_first_in_table_order_witness :
  exists before k a after,
    initializeCommands = before ++ (k, a) :: after /\
    (includes k (js "graph") = true \/ includes (js "graph") k = true) /\
    (forall k', In k' (keys before) ->
       includes k' (js "graph") = false /\ includes (js "graph") k' = false) /\
    tier (js "graph") = PartialTier k a /\
    processCommand samplePage (js "graph") initialWorld =
      invoke samplePage a
        (emit (Console LogLevel (js "Processing command:") (js "graph")) initialWorld).
Proof.
  apply (partial_match_first_in_table_order samplePage initialWorld (js "graph")).
  - vm_compute. intros H.
    repeat (destruct H as [H | H]; [discriminate H|]). exact H.
  - exists (js "open graph"). split.
    + vm_compute. tauto.
    + left. vm_compute. reflexivity.
Defined.


(** ** Traces *)

Lemma spoken_app (t1 t2 : list Output) : spoken (t1 ++ t2) = spoken t1 ++ spoken t2.
Proof.
  induction t1 as [|o t1 IH]; simpl; [reflexivity|].
  destruct (is_speech o); simpl; rewrite IH; reflexivity.
Qed.

(** On a phrase no earlier tier handles, [processCommand] is the
    unknown-command heuristic: a learning suggestion, the help text, or the
    apology. *)
Lemma unknown_tier_runs_fallback (env : Env) (p : jsstring) (w : World) :
  tier p = UnknownTier ->
  processCommand env p w =
  let w' := emit (Console LogLevel (js "Processing command:") p) w in
  match fallback p with
  | LearningHint => speak env learningSuggestion w'
  | HelpBranch => showHelp env w'
  | Apology => speak env apology w'
  end.
Proof.
  intros Ht. rewrite processCommand_tier, Ht. cbv zeta.
  apply handleUnknownCommand_fallback.
Qed.

(** C3. The phrase "constructor" is no key of the table, contains no key and
    is contained in none, and contains none of "concept", "learn" and "help";
    yet [processCommand] does not hand it to the unknown-command fallback:
    the property lookup finds [Object.prototype.constructor], calls it and
    returns, and no apology is spoken. *)
Theorem inherited_property_skips_fallback (env : Env) (w : World) :
  existsb (eqb (js "constructor")) (keys initializeCommands) = false /\
  existsb (partialMatch (js "constructor")) initializeCommands = false /\
  fallback (js "constructor") = Apology /\
  tier (js "constructor") = InheritedProperty ReturnsQuietly /\
  processCommand env (js "constructor") w =
    emit (Console LogLevel (js "Processing command:") (js "constructor")) w /\
  spoken (trace (processCommand env (js "constructor") w)) = spoken (trace w).
Proof.
  assert (Ht : tier (js "constructor") = InheritedProperty ReturnsQuietly)
    by (vm_compute; reflexivity).
  assert (Hp : processCommand env (js "constructor") w =
               emit (Console LogLevel (js "Processing command:") (js "constructor")) w).
  { rewrite processCommand_tier, Ht. reflexivity. }
  repeat split; try (vm_compute; reflexivity); try assumption.
  rewrite Hp. unfold emit. simpl. rewrite spoken_app. simpl. apply app_nil_r.
Qed.

(** A phrase that contains "help" is handled by the exact tier or by the
    partial tier. *)
Lemma help_phrase_tier (p : jsstring) :
  includes p (js "help") = true ->
  (exists a, tier p = ExactTier a) \/ (exists k a, tier p = PartialTier k a).
Proof.
  intros Hh.
  assert (Hin : In (js "help", ShowHelp) initializeCommands) by (vm_compute; tauto).
  assert (Hm : partialMatch p (js "help", ShowHelp) = true).
  { unfold partialMatch. cbn [fst]. rewrite Hh. reflexivity. }
  destruct (in_dec (list_eq_dec N.eq_dec) p (keys initializeCommands)) as [Hk | Hk].
  - left. apply in_map_iff in Hk as ([k a] & Hfst & Hk). simpl in Hfst. subst k.
    exists a. unfold tier. rewrite (getProperty_key _ _ Hk). reflexivity.
  - right. unfold tier. rewrite (getProperty_partial p _ Hk Hin Hm).
    destruct (find (partialMatch p) initializeCommands) as [[k a]|] eqn:Hfind.
    + exists k, a. reflexivity.
    + rewrite find_None_iff in Hfind. rewrite (Hfind _ Hin) in Hm. discriminate Hm.
Qed.

(** C10. A phrase that [processCommand] hands to [handleUnknownCommand] does
    not contain "help", so the fallback never takes its help branch: a
    phrase that contains "help" contains the key 'help' and is handled by an
    earlier tier. *)
Theorem help_branch_unreachable (p : jsstring) :
  tier p = UnknownTier ->
  includes p (js "help") = false /\ fallback p <> HelpBranch.
Proof.
  intros Ht.
  assert (Hh : includes p (js "help") = false).
  { destruct (includes p (js "help")) eqn:E; [|reflexivity].
    destruct (help_phrase_tier p E) as [[a Ha] | (k & a & Ha)];
      rewrite Ha in Ht; discriminate Ht. }
  split; [exact Hh|].
  unfold fallback. rewrite Hh.
  destruct (includes p (js "concept") || includes p (js "learn")); discriminate.
Qed.

Lemma help_branch_unreachable_witness :
  tier (js "banana") = UnknownTier /\
  includes (js "banana") (js "help") = false /\ fallback (js "banana") <> HelpBranch.
Proof.
  assert (Ht : tier (js "banana") = UnknownTier) by (vm_compute; reflexivity).
  split; [exact Ht | exact (help_branch_unreachable (js "banana") Ht)].
Defined.

(** ** Result batches *)

(** [handleSpeechResult] shows a transcript and then calls [processCommand]
    on [dispatched event], when that is defined. *)
Lemma handleSpeechResult_dispatched
    (toLowerCase : jsstring -> jsstring) (env : Env) (event : SpeechEvent) (w : World) :
  handleSpeechResult toLowerCase env event w =
  let w' := showTranscript env
              (or_else (snd (transcripts event)) (fst (transcripts event))) w in
  match dispatched toLowerCase event with
  | Some command => processCommand env command w'
  | None => w'
  end.
Proof.
  unfold handleSpeechResult, dispatched.
  destruct (transcripts event) as [finalTranscript interimTranscript]. simpl.
  destruct (truthy finalTranscript); reflexivity.
Qed.

(** C9. A final transcript that is not empty and consists of white space
    only (which lower-casing leaves as it is) is dispatched as the empty
    phrase; the empty phrase is contained in the first key of the table, 'go
    to dashboard', so [processCommand] assigns '/' to the location instead of
    running the unknown-command fallback. *)
Theorem whitespace_transcript_opens_dashboard
    (toLowerCase : jsstring -> jsstring) (env : Env) (event : SpeechEvent) (w : World) :
  truthy (fst (transcripts event)) = true ->
  forallb isWhiteSpace (fst (transcripts event)) = true ->
  toLowerCase (fst (transcripts event)) = fst (transcripts event) ->
  dispatched toLowerCase event = Some [] /\
  tier [] = PartialTier (js "go to dashboard") (Navigate (js "/")) /\
  handleSpeechResult toLowerCase env event w =
    emit (LocationAssign (js "/"))
      (emit (Console LogLevel (js "Processing command:") [])
         (showTranscript env
            (or_else (snd (transcripts event)) (fst (transcripts event))) w)).
Proof.
  intros Hne Hws Hlow.
  assert (Hd : dispatched toLowerCase event = Some []).
  { unfold dispatched. rewrite Hne, Hlow, (trim_whitespace _ Hws). reflexivity. }
  assert (Ht : tier [] = PartialTier (js "go to dashboard") (Navigate (js "/")))
    by (vm_compute; reflexivity).
  split; [exact Hd | split; [exact Ht|]].
  rewrite handleSpeechResult_dispatched, Hd. cbv zeta.
  rewrite processCommand_tier, Ht. reflexivity.
Qed.

Lemma whitespace_transcript_opens_dashboard_witness :
  handleSpeechResult asciiLower samplePage blankBatch initialWorld =
    emit (LocationAssign (js "/"))
      (emit (Console LogLevel (js "Processing command:") [])
         (showTranscript samplePage
            (or_else (snd (transcripts blankBatch)) (fst (transcripts blankBatch)))
            initialWorld)).
Proof.
  apply (whitespace_transcript_opens_dashboard asciiLower samplePage blankBatch initialWorld);
    vm_compute; reflexivity.
Defined.

Lemma fold_accumulate (l : list Result) (f i : jsstring) :
  fold_left accumulate l (f, i) =
  (f ++ List.concat (map (fun r => alt_transcript (best r)) (filter isFinal l)),
   i ++ List.concat (map (fun r => alt_transcript (best r))
                    (filter (fun r => negb (isFinal r)) l))).
Proof.
  revert f i; induction l as [|r l IH]; intros f i; simpl.
  - rewrite !app_nil_r. reflexivity.
  - destruct (isFinal r); simpl; rewrite IH, <- app_assoc; reflexivity.
Qed.

(** The loop of [handleSpeechResult] computes [finalText] and [interimText]. *)
Lemma transcripts_spec (event : SpeechEvent) :
  transcripts event = (finalText event, interimText event).
Proof. unfold transcripts. rewrite fold_accumulate. reflexivity. Qed.

Lemma differ_only_in_interim_skipn (n : nat) (l1 l2 : list Result) :
  Forall2 differ_only_in_interim l1 l2 ->
  Forall2 differ_only_in_interim (skipn n l1) (skipn n l2).
Proof.
  intros H; revert n; induction H as [|r1 r2 l1 l2 Hr Hl IH]; intros [|n]; simpl;
    try constructor; auto.
Qed.

Lemma differ_only_in_interim_finals (l1 l2 : list Result) :
  Forall2 differ_only_in_interim l1 l2 -> filter isFinal l1 = filter isFinal l2.
Proof.
  induction 1 as [|r1 r2 l1 l2 Hr Hl IH]; simpl; [reflexivity|].
  destruct Hr as [<- | [H1 H2]].
  - rewrite IH. reflexivity.
  - rewrite H1, H2. exact IH.
Qed.

(** C4. Two result batches that differ only in their interim hypotheses
    make [handleSpeechResult] pass the same phrase to [processCommand] (or
    make it pass none): the phrase is the concatenation of the final
    transcripts, lower-cased and trimmed, and is dispatched when that
    concatenation is not empty. *)
Theorem interim_text_never_dispatched
    (toLowerCase : jsstring -> jsstring) (e1 e2 : SpeechEvent) :
  resultIndex e1 = resultIndex e2 ->
  Forall2 differ_only_in_interim (results e1) (results e2) ->
  dispatched toLowerCase e1 = dispatched toLowerCase e2 /\
  dispatched toLowerCase e1 =
    (if truthy (finalText e1) then Some (trim (toLowerCase (finalText e1))) else None).
Proof.
  intros Hidx Hres.
  assert (Hf : finalText e1 = finalText e2).
  { unfold finalText. rewrite <- Hidx.
    rewrite (differ_only_in_interim_finals _ _
               (differ_only_in_interim_skipn (resultIndex e1) _ _ Hres)).
    reflexivity. }
  unfold dispatched. rewrite !transcripts_spec. simpl. rewrite <- Hf.
  split; reflexivity.
Qed.

Lemma interim_text_never_dispatched_witness :
  dispatched asciiLower
    {| resultIndex := 1;
       results := [final_result "mute"; final_result "Show "; interim_result "grap";
                   final_result "Progress"] |} =
  dispatched asciiLower
    {| resultIndex := 1;
       results := [final_result "mute"; final_result "Show "; interim_result "next concept";
                   final_result "Progress"] |}.
Proof.
  apply (interim_text_never_dispatched asciiLower
           {| resultIndex := 1;
              results := [final_result "mute"; final_result "Show "; interim_result "grap";
                          final_result "Progress"] |}
           {| resultIndex := 1;
              results := [final_result "mute"; final_result "Show ";
                          interim_result "next concept"; final_result "Progress"] |}).
  - reflexivity.
  - simpl. repeat constructor; solve [left; reflexivity | right; split; reflexivity].
Defined.

(** ** Speech output *)

Lemma speak_trace (env : Env) (m : jsstring) (w : World) :
  trace (speak env m w) =
  trace w ++ (if synthesis env then [SynthesisCancel; SynthesisSpeak (utterance env m)] else []).
Proof.
  unfold speak, synthesis_speak, synthesis_cancel, emit.
  destruct (synthesis env); simpl; [rewrite <- app_assoc | rewrite app_nil_r]; reflexivity.
Qed.

Lemma speak_queue (env : Env) (m : jsstring) (w : World) :
  queue (speak env m w) = if synthesis env then [utterance env m] else queue w.
Proof. unfold speak. destruct (synthesis env); reflexivity. Qed.

Lemma speak_timers (env : Env) (m : jsstring) (w : World) :
  timers (speak env m w) = timers w.
Proof. unfold speak. destruct (synthesis env); reflexivity. Qed.

Lemma speak_fetches (env : Env) (m : jsstring) (w : World) :
  fetches (speak env m w) = fetches w.
Proof. unfold speak. destruct (synthesis env); reflexivity. Qed.

Lemma speak_flags (env : Env) (m : jsstring) (w : World) :
  isEnabled (speak env m w) = isEnabled w /\ isListening (speak env m w) = isListening w.
Proof. unfold speak. destruct (synthesis env); split; reflexivity. Qed.

(** C6. Where speech synthesis exists, [speak] calls [cancel] and then
    submits its utterance, so that the synthesiser holds that utterance and
    no other; after two calls in a row it holds the second text only. *)
Theorem speak_cancels_previous_utterance (env : Env) (first second : jsstring) (w : World) :
  synthesis env = true ->
  trace (speak env first w) =
    trace w ++ [SynthesisCancel; SynthesisSpeak (utterance env first)] /\
  queue (speak env first w) = [utterance env first] /\
  queue (speak env second (speak env first w)) = [utterance env second] /\
  map text (queue (speak env second (speak env first w))) = [second].
Proof.
  intros Hs. rewrite speak_trace, !speak_queue, Hs. repeat split; reflexivity.
Qed.

Lemma speak_cancels_previous_utterance_witness :
  map text (queue (speak samplePage (js "Voice assistant deactivated.")
                     (speak samplePage (js "Let me check your progress!") initialWorld)))
  = [js "Voice assistant deactivated."].
Proof.
  apply (speak_cancels_previous_utterance samplePage (js "Let me check your progress!")
           (js "Voice assistant deactivated.") initialWorld).
  reflexivity.
Defined.

(** ** Recognition life cycle *)

(** [startListening] does nothing while the assistant is disabled. *)
Lemma startListening_disabled (env : Env) (w : World) :
  isEnabled w = false -> startListening env w = w.
Proof.
  intros H. unfold startListening. rewrite H, andb_false_r. reflexivity.
Qed.

Lemma updateVoiceUI_fields (env : Env) (w : World) :
  isEnabled (updateVoiceUI env w) = isEnabled w /\
  isListening (updateVoiceUI env w) = isListening w /\
  timers (updateVoiceUI env w) = timers w /\
  trace (updateVoiceUI env w) = trace w.
Proof. unfold updateVoiceUI. destruct (has_button env); repeat split; reflexivity. Qed.

Lemma stopListening_fields (env : Env) (w : World) :
  isEnabled (stopListening env w) = isEnabled w /\
  isListening (stopListening env w) = isListening w /\
  timers (stopListening env w) = timers w.
Proof.
  unfold stopListening. destruct (recognition env && isListening w); repeat split; reflexivity.
Qed.

Lemma disable_fields (env : Env) (w : World) :
  isEnabled (disable env w) = false /\
  isListening (disable env w) = isListening w /\
  timers (disable env w) = timers w.
Proof.
  unfold disable.
  destruct (updateVoiceUI_fields env
              (speak env (js "Voice assistant deactivated.")
                 (stopListening env (set_isEnabled false w)))) as (E1 & E2 & E3 & _).
  destruct (speak_flags env (js "Voice assistant deactivated.")
              (stopListening env (set_isEnabled false w))) as (F1 & F2).
  destruct (stopListening_fields env (set_isEnabled false w)) as (G1 & G2 & G3).
  rewrite E1, E2, E3, F1, F2, speak_timers, G1, G2, G3. repeat split; reflexivity.
Qed.

Lemma onend_enabled (env : Env) (w : World) :
  isEnabled w = true ->
  timers (onend env w) = timers w ++ [(1000%N, RestartListening)] /\
  isListening (onend env w) = false.
Proof.
  intros H. unfold onend.
  destruct (updateVoiceUI_fields env (set_isListening false (set_capturing false w)))
    as (E1 & E2 & E3 & _).
  rewrite E1. simpl. rewrite H. unfold setTimeout. simpl. rewrite E2, E3. split; reflexivity.
Qed.

(** [enable] directly followed by [disable] leaves the assistant disabled. *)
Lemma enable_then_disable (env : Env) (w : World) :
  isEnabled (disable env (enable env w)) = false.
Proof. apply disable_fields. Qed.

(** While the assistant is still enabled, the restart timer does request a
    start from a recogniser that has ended. *)
Lemma restart_when_still_enabled (env : Env) (w : World) :
  recognition env = true -> isEnabled w = true -> isListening w = false ->
  capturing w = false ->
  trace (runCallback env RestartListening w) = trace w ++ [RecognitionStart].
Proof.
  intros Hr He Hl Hc. unfold runCallback, startListening.
  rewrite Hr, He, Hl, Hc. reflexivity.
Qed.

Lemma nth_error_last {A : Type} (l : list A) (x : A) :
  nth_error (l ++ [x]) (List.length l) = Some x.
Proof. induction l as [|y l IH]; simpl; [reflexivity | exact IH]. Qed.

Lemma remove_nth_last {A : Type} (l : list A) (x : A) :
  remove_nth (List.length l) (l ++ [x]) = l.
Proof. induction l as [|y l IH]; simpl; [reflexivity | rewrite IH; reflexivity]. Qed.

(** C5. When the recogniser ends while the assistant is enabled, a restart is
    scheduled one second later; if [disable] runs before that timer fires,
    the timer is still pending, and when it fires [startListening] sees
    [isEnabled = false] and does nothing: no start is requested and
    [isListening] stays false. *)
Theorem restart_checks_enabled_when_it_fires
    (toLowerCase : jsstring -> jsstring) (env : Env) (w : World) :
  isEnabled w = true ->
  timers (onend env w) = timers w ++ [(1000%N, RestartListening)] /\
  timers (disable env (onend env w)) = timers w ++ [(1000%N, RestartListening)] /\
  isEnabled (disable env (onend env w)) = false /\
  runCallback env RestartListening (disable env (onend env w)) = disable env (onend env w) /\
  step toLowerCase env (TimerFires (List.length (timers w))) (disable env (onend env w)) =
    set_timers (timers w) (disable env (onend env w)) /\
  trace (step toLowerCase env (TimerFires (List.length (timers w)))
           (disable env (onend env w))) = trace (disable env (onend env w)) /\
  isListening
    (step toLowerCase env (TimerFires (List.length (timers w))) (disable env (onend env w))) = false.
Proof.
  intros He.
  destruct (onend_enabled env w He) as (Ht & Hl).
  destruct (disable_fields env (onend env w)) as (D1 & D2 & D3).
  assert (Hstep : step toLowerCase env (TimerFires (List.length (timers w)))
                    (disable env (onend env w)) =
                  set_timers (timers w) (disable env (onend env w))).
  { unfold step. rewrite D3, Ht, nth_error_last, remove_nth_last.
    unfold runCallback. apply startListening_disabled. simpl. exact D1. }
  repeat split.
  - exact Ht.
  - rewrite D3. exact Ht.
  - exact D1.
  - unfold runCallback. apply startListening_disabled, D1.
  - exact Hstep.
  - rewrite Hstep. reflexivity.
  - rewrite Hstep. simpl. rewrite D2. exact Hl.
Qed.

Lemma restart_checks_enabled_when_it_fires_witness :
  runCallback samplePage RestartListening
    (disable samplePage (onend samplePage (onstart samplePage (enable samplePage initialWorld))))
  = disable samplePage (onend samplePage (onstart samplePage (enable samplePage initialWorld))).
Proof.
  apply (restart_checks_enabled_when_it_fires asciiLower samplePage
           (onstart samplePage (enable samplePage initialWorld))).
  reflexivity.
Defined.

(** ** Fetch handlers *)

Lemma emit_trace (o : Output) (w : World) : trace (emit o w) = trace w ++ [o].
Proof. reflexivity. Qed.

Lemma fetch_fetches (url : jsstring) (h : Handler) (w : World) :
  fetches (fetch url h w) = fetches w ++ [(url, h)].
Proof. reflexivity. Qed.

Lemma fetch_trace (url : jsstring) (h : Handler) (w : World) :
  trace (fetch url h w) = trace w.
Proof. reflexivity. Qed.

Lemma set_fetches_trace (f : list (jsstring * Handler)) (w : World) :
  trace (set_fetches f w) = trace w.
Proof. reflexivity. Qed.

Lemma filter_app_nil {A : Type} (f : A -> bool) (l extra : list A) :
  filter f extra = [] -> filter f (l ++ extra) = filter f l.
Proof. intros H. rewrite filter_app, H, app_nil_r. reflexivity. Qed.

(** [Math.round] is 63 on the whole interval around 62.7, and so on the
    double nearest to it. *)
Lemma Math_round_63 (q : Q) : 125 # 2 <= q -> q < 127 # 2 -> Math_round q = 63%Z.
Proof.
  intros Hlo Hhi. unfold Math_round.
  assert (H1 : inject_Z 63 <= q + (1 # 2)).
  { apply Qle_trans with ((125 # 2) + (1 # 2)); [vm_compute; discriminate|].
    apply Qplus_le_l. exact Hlo. }
  assert (H2 : q + (1 # 2) < inject_Z 64).
  { apply Qlt_le_trans with ((127 # 2) + (1 # 2)); [|vm_compute; discriminate].
    apply Qplus_lt_l. exact Hhi. }
  pose proof (Qfloor_le (q + (1 # 2))) as F1.
  pose proof (Qlt_floor (q + (1 # 2))) as F2.
  assert (G1 : (Qfloor (q + (1 # 2)) < 64)%Z).
  { rewrite Zlt_Qlt. eapply Qle_lt_trans; eassumption. }
  assert (G2 : (63 < Qfloor (q + (1 # 2)) + 1)%Z).
  { rewrite Zlt_Qlt. eapply Qle_lt_trans; eassumption. }
  lia.
Qed.

Lemma progress_message_example :
  progressMessage (Some 5%Z) (Some (627 # 10)) =
  js "You've completed 5 concepts with 63% overall progress. Keep up the great work!".
Proof. vm_compute. reflexivity. Qed.

(** C7. "show progress" is an exact match; its action announces the check
    and fetches the progress endpoint; when that fetch answers
    [{completed: 5, percentage: 62.7}], the text spoken is "You've completed 5
    concepts with 63% overall progress. Keep up the great work!". *)
Theorem show_progress_speaks_rounded_percentage
    (toLowerCase : jsstring -> jsstring) (env : Env) (w : World) :
  synthesis env = true ->
  tier (js "show progress") = ExactTier ShowProgress /\
  fetches (processCommand env (js "show progress") w) =
    fetches w ++ [(js "/api/progress", ShowProgressHandler)] /\
  queue (step toLowerCase env
           (FetchSettles (List.length (fetches w))
              (Fulfilled (Progress (Some 5%Z) (Some (627 # 10)))))
           (processCommand env (js "show progress") w)) =
    [utterance env
       (js "You've completed 5 concepts with 63% overall progress. Keep up the great work!")] /\
  spoken (trace (step toLowerCase env
           (FetchSettles (List.length (fetches w))
              (Fulfilled (Progress (Some 5%Z) (Some (627 # 10)))))
           (processCommand env (js "show progress") w))) =
    spoken (trace w) ++
    [js "Let me check your progress!";
     js "You've completed 5 concepts with 63% overall progress. Keep up the great work!"].
Proof.
  intros Hs.
  assert (Ht : tier (js "show progress") = ExactTier ShowProgress) by (vm_compute; reflexivity).
  rewrite processCommand_tier, Ht. cbv zeta. change (invoke env ShowProgress) with (showProgress env).
  unfold showProgress at 1. rewrite fetch_fetches, speak_fetches.
  split; [reflexivity | split; [reflexivity|]].
  unfold step, showProgress.
  rewrite fetch_fetches, speak_fetches. change (fetches (emit ?o w)) with (fetches w).
  rewrite nth_error_last, remove_nth_last.
  unfold settle, onProgress. rewrite progress_message_example.
  rewrite speak_queue, speak_trace, Hs. split; [reflexivity|].
  rewrite set_fetches_trace, fetch_trace, speak_trace, Hs, emit_trace.
  rewrite !spoken_app, <- !app_assoc. reflexivity.
Qed.

Lemma show_progress_speaks_rounded_percentage_witness :
  map text
    (queue (step asciiLower samplePage
              (FetchSettles (List.length (fetches initialWorld))
                 (Fulfilled (Progress (Some 5%Z) (Some (627 # 10)))))
              (processCommand samplePage (js "show progress") initialWorld))) =
  [js "You've completed 5 concepts with 63% overall progress. Keep up the great work!"].
Proof.
  rewrite (proj1 (proj2 (proj2
            (show_progress_speaks_rounded_percentage asciiLower samplePage initialWorld
               eq_refl)))).
  reflexivity.
Defined.

(** C8. "next concept" fetches the learning-path endpoint; when that fetch
    rejects, the text spoken is "Sorry, I couldn't find your next concept
    right now.", no location is assigned, no timer is scheduled and no fetch
    is issued again. *)
Theorem next_concept_rejection_speaks_apology
    (toLowerCase : jsstring -> jsstring) (env : Env) (w : World) :
  synthesis env = true ->
  fetches (processCommand env (js "next concept") w) =
    fetches w ++ [(js "/api/adaptive-learning-path", NextConceptHandler)] /\
  spoken (trace (step toLowerCase env (FetchSettles (List.length (fetches w)) Rejected)
                   (processCommand env (js "next concept") w))) =
    spoken (trace w) ++
    [js "Finding your next concept to learn!";
     js "Sorry, I couldn't find your next concept right now."] /\
  navigations (step toLowerCase env (FetchSettles (List.length (fetches w)) Rejected)
                 (processCommand env (js "next concept") w)) = navigations w /\
  timers (step toLowerCase env (FetchSettles (List.length (fetches w)) Rejected)
            (processCommand env (js "next concept") w)) = timers w /\
  fetches (step toLowerCase env (FetchSettles (List.length (fetches w)) Rejected)
             (processCommand env (js "next concept") w)) = fetches w.
Proof.
  intros Hs.
  assert (Ht : tier (js "next concept") = ExactTier NextConcept) by (vm_compute; reflexivity).
  rewrite processCommand_tier, Ht. cbv zeta. change (invoke env NextConcept) with (nextConcept env).
  unfold nextConcept at 1. rewrite fetch_fetches, speak_fetches.
  split; [reflexivity|].
  unfold step, nextConcept.
  rewrite fetch_fetches, speak_fetches. change (fetches (emit ?o w)) with (fetches w).
  rewrite nth_error_last, remove_nth_last.
  unfold settle, onNextConcept, navigations.
  rewrite speak_trace, speak_timers, speak_fetches, Hs.
  rewrite set_fetches_trace, fetch_trace, speak_trace, Hs, emit_trace.
  repeat split.
  - rewrite !spoken_app, <- !app_assoc. reflexivity.
  - rewrite <- !app_assoc. apply filter_app_nil. reflexivity.
  - change (timers (set_fetches ?f ?x)) with (timers x).
    change (timers (fetch ?u ?h ?x)) with (timers x). rewrite speak_timers. reflexivity.
Qed.

Lemma next_concept_rejection_speaks_apology_witness :
  navigations (step asciiLower samplePage (FetchSettles (List.length (fetches initialWorld)) Rejected)
                 (processCommand samplePage (js "next concept") initialWorld))
  = navigations initialWorld.
Proof.
  apply (next_concept_rejection_speaks_apology asciiLower samplePage initialWorld).
  reflexivity.
Defined.

(** ** Sessions *)

(** The recogniser ends while the assistant is enabled: the restart timer
    requests a second start. *)
Example session_restart_after_end :
  requests (run asciiLower samplePage
              [Toggle; RecognitionStarted; RecognitionEnded; TimerFires 0] initialWorld)
  = [RecognitionStart; RecognitionStart].
Proof. vm_compute. reflexivity. Qed.

(** The user switches the assistant off before the restart timer fires: no
    second start is requested. *)
Example session_disable_in_restart_window :
  requests (run asciiLower samplePage
              [Toggle; RecognitionStarted; RecognitionEnded; Toggle; TimerFires 0] initialWorld)
  = [RecognitionStart].
Proof. vm_compute. reflexivity. Qed.

Example session_show_progress :
  spoken (trace (run asciiLower samplePage
                   [Toggle; RecognitionStarted;
                    RecognitionResult
                      {| resultIndex := 0;
                         results := [final_result " Show progress"; interim_result "mute"] |};
                    FetchSettles 0 (Fulfilled (Progress (Some 5%Z) (Some (627 # 10))))]
                   initialWorld))
  = [js "Voice assistant activated. How can I help you learn?";
     js "Let me check your progress!";
     js "You've completed 5 concepts with 63% overall progress. Keep up the great work!"].
Proof. vm_compute. reflexivity. Qed.

(** * Further properties of the engine *)

Ltac unfold_engine :=
  unfold step, toggle, enable, disable, onstart, onend, onerror,
    handleSpeechResult, showTranscript, processCommand, handleUnknownCommand,
    call_builtin, invoke, startQuickLesson, nextConcept, showProgress, showStats,
    getAIRecommendation, getAIHelp, getStudyTips, explainConcept, zoomGraph,
    resetGraph, centerGraph, showHelp, showCapabilities, disable, settle,
    onNextConcept, onProgress, onStats, onAIHelp, runCallback, startListening,
    stopListening, updateVoiceUI, speak, synthesis_speak, synthesis_cancel, emit,
    setTimeout, fetch in *.

Ltac case_all :=
  repeat match goal with
         | |- context [match ?x with _ => _ end] => destruct x eqn:?
         end.

Ltac trace_norm :=
  unfold requests, navigations, pageCalls; cbn;
  rewrite ?filter_app, ?spoken_app; cbn; rewrite ?app_nil_r, <- ?app_assoc.

(** ** Toggling *)

Lemma speak_requests (env : Env) (m : jsstring) (w : World) :
  requests (speak env m w) = requests w.
Proof.
  unfold requests. rewrite speak_trace, filter_app.
  destruct (synthesis env); simpl; apply app_nil_r.
Qed.

(** X1. Without speech recognition, [toggle] only speaks its apology: the
    assistant is not enabled and nothing is asked of a recogniser. *)
Theorem toggle_unsupported_only_apologises (env : Env) (w : World) :
  recognition env = false ->
  toggle env w =
    speak env (js "Sorry, voice recognition is not supported in your browser.") w /\
  isEnabled (toggle env w) = isEnabled w /\
  isListening (toggle env w) = isListening w /\
  requests (toggle env w) = requests w.
Proof.
  intros Hr. unfold toggle. rewrite Hr. cbn [negb].
  destruct (speak_flags env
              (js "Sorry, voice recognition is not supported in your browser.") w) as [E L].
  rewrite E, L, speak_requests. repeat split; reflexivity.
Qed.

Lemma toggle_unsupported_only_apologises_witness :
  isEnabled (toggle {| recognition := false; synthesis := true; getVoices := [];
                       pathname := js "/"; has_startQuickLesson := false;
                       has_resetGraph := false; has_centerGraph := false;
                       has_button := true; has_transcript := true;
                       random := fun _ => 0 |} initialWorld) = isEnabled initialWorld.
Proof.
  apply (toggle_unsupported_only_apologises
           {| recognition := false; synthesis := true; getVoices := [];
              pathname := js "/"; has_startQuickLesson := false;
              has_resetGraph := false; has_centerGraph := false;
              has_button := true; has_transcript := true;
              random := fun _ => 0 |} initialWorld).
  reflexivity.
Defined.

Lemma enable_fields (env : Env) (w : World) :
  isEnabled (enable env w) = true /\ isListening (enable env w) = isListening w.
Proof. unfold_engine. case_all; split; reflexivity. Qed.

(** X2. With speech recognition, [toggle] inverts [isEnabled] and leaves
    [isListening] to the recogniser's callbacks; two toggles in a row give
    back the [isEnabled] they started from. *)
Theorem toggle_flips_enabled (env : Env) (w : World) :
  recognition env = true ->
  isEnabled (toggle env w) = negb (isEnabled w) /\
  isListening (toggle env w) = isListening w /\
  isEnabled (toggle env (toggle env w)) = isEnabled w.
Proof.
  intros Hr.
  assert (H : forall v, isEnabled (toggle env v) = negb (isEnabled v) /\
                        isListening (toggle env v) = isListening v).
  { intros v. unfold toggle. rewrite Hr. cbn [negb].
    destruct (isEnabled v).
    - destruct (disable_fields env v) as (E & L & _). rewrite E, L. split; reflexivity.
    - destruct (enable_fields env v) as (E & L). rewrite E, L. split; reflexivity. }
  destruct (H w) as [E L]. destruct (H (toggle env w)) as [E' _].
  rewrite E', E, negb_involutive. repeat split; assumption.
Qed.

Lemma toggle_flips_enabled_witness :
  isEnabled (toggle samplePage (toggle samplePage initialWorld)) = isEnabled initialWorld.
Proof.
  apply (toggle_flips_enabled samplePage initialWorld). reflexivity.
Defined.

(** ** Starting and stopping *)


Lemma updateVoiceUI_button (env : Env) (w : World) :
  has_button env = true -> button (updateVoiceUI env w) = Some (buttonFor env w).
Proof. intros H. unfold updateVoiceUI, buttonFor. rewrite H. reflexivity. Qed.

Lemma updateVoiceUI_requests (env : Env) (w : World) :
  requests (updateVoiceUI env w) = requests w.
Proof.
  unfold requests. destruct (updateVoiceUI_fields env w) as (_ & _ & _ & T).
  rewrite T. reflexivity.
Qed.

Lemma stopListening_idle (env : Env) (w : World) :
  isListening w = false -> stopListening env w = w.
Proof. intros H. unfold stopListening. rewrite H, andb_false_r. reflexivity. Qed.

Lemma disable_requests (env : Env) (w : World) :
  requests (disable env w) =
  requests w ++ (if recognition env && isListening w then [RecognitionStop] else []).
Proof.
  unfold disable. rewrite updateVoiceUI_requests, speak_requests.
  unfold stopListening. cbn [isListening set_isEnabled].
  destruct (recognition env && isListening w); trace_norm; reflexivity.
Qed.

Lemma enable_requests (env : Env) (w : World) :
  recognition env = true -> isListening w = false -> capturing w = false ->
  requests (enable env w) = requests w ++ [RecognitionStart].
Proof.
  intros Hr Hl Hc. unfold enable. rewrite updateVoiceUI_requests, speak_requests.
  unfold startListening. cbn. rewrite Hr, Hl, Hc. trace_norm. reflexivity.
Qed.

Lemma onstart_fields (env : Env) (w : World) :
  isEnabled (onstart env w) = isEnabled w /\ isListening (onstart env w) = true /\
  (has_button env = true ->
   button (onstart env w) = Some (if recognition env then ListeningNow else NotSupported)).
Proof.
  unfold onstart.
  destruct (updateVoiceUI_fields env (set_isListening true w)) as (E & L & _).
  cbn [isEnabled isListening button emit set_trace]. rewrite E, L.
  repeat split. intros Hb. rewrite (updateVoiceUI_button _ _ Hb).
  unfold buttonFor. destruct (recognition env); reflexivity.
Qed.

(** X4. [enable] directly followed by [disable], before the recogniser has
    called back: the start request is made, but no stop request follows it,
    because [isListening] is still false; when the recogniser then reports
    its start, the assistant is listening although it is disabled. *)
Theorem disable_before_start_leaves_recogniser_running (env : Env) (w : World) :
  recognition env = true -> isListening w = false -> capturing w = false ->
  requests (disable env (enable env w)) = requests w ++ [RecognitionStart] /\
  isEnabled (onstart env (disable env (enable env w))) = false /\
  isListening (onstart env (disable env (enable env w))) = true.
Proof.
  intros Hr Hl Hc.
  destruct (enable_fields env w) as (_ & L).
  destruct (disable_fields env (enable env w)) as (E' & _ & _).
  destruct (onstart_fields env (disable env (enable env w))) as (E & L' & _).
  rewrite disable_requests, L, Hl, andb_false_r, app_nil_r, E, E'.
  rewrite (enable_requests env w Hr Hl Hc). repeat split. exact L'.
Qed.

Lemma disable_before_start_leaves_recogniser_running_witness :
  requests (disable samplePage (enable samplePage initialWorld)) =
    requests initialWorld ++ [RecognitionStart] /\
  isEnabled (onstart samplePage (disable samplePage (enable samplePage initialWorld))) = false /\
  isListening (onstart samplePage (disable samplePage (enable samplePage initialWorld))) = true.
Proof.
  destruct (disable_before_start_leaves_recogniser_running samplePage initialWorld
              eq_refl eq_refl eq_refl) as (H1 & H2 & H3).
  repeat split; assumption.
Defined.

Lemma onend_fields (env : Env) (w : World) :
  isEnabled (onend env w) = isEnabled w /\ isListening (onend env w) = false /\
  timers (onend env w) =
    timers w ++ (if isEnabled w then [(1000%N, RestartListening)] else []) /\
  trace (onend env w) = trace w /\
  (has_button env = true ->
   button (onend env w) =
     Some (if negb (recognition env) then NotSupported
           else if isEnabled w then ReadyToListen else ClickToActivate)).
Proof.
  unfold onend.
  destruct (updateVoiceUI_fields env (set_isListening false (set_capturing false w)))
    as (E & L & T & R).
  rewrite E. cbn [isEnabled set_isListening set_capturing].
  assert (B : has_button env = true ->
              button (updateVoiceUI env (set_isListening false (set_capturing false w))) =
              Some (if negb (recognition env) then NotSupported
                    else if isEnabled w then ReadyToListen else ClickToActivate)).
  { intros Hb. rewrite (updateVoiceUI_button _ _ Hb). reflexivity. }
  cbn [isEnabled isListening timers trace set_isListening set_capturing] in E, L, T, R.
  destruct (isEnabled w) eqn:He;
    cbn [isEnabled isListening timers trace button setTimeout set_timers];
    rewrite ?E, L, T, R, ?He, ?app_nil_r; repeat split; exact B.
Qed.

(** X5. [disable] while the recogniser is listening asks it to stop; when
    the recogniser then ends, no restart is scheduled and nothing more is
    asked of it. *)
Theorem disable_while_listening_stops_for_good (env : Env) (w : World) :
  recognition env = true -> isListening w = true ->
  requests (disable env w) = requests w ++ [RecognitionStop] /\
  timers (onend env (disable env w)) = timers w /\
  requests (onend env (disable env w)) = requests w ++ [RecognitionStop] /\
  isEnabled (onend env (disable env w)) = false /\
  isListening (onend env (disable env w)) = false.
Proof.
  intros Hr Hl.
  destruct (disable_fields env w) as (E & _ & T).
  destruct (onend_fields env (disable env w)) as (E' & L' & T' & R' & _).
  assert (Hq : requests (disable env w) = requests w ++ [RecognitionStop]).
  { rewrite disable_requests, Hr, Hl. reflexivity. }
  unfold requests in *. rewrite E', L', T', R', E, T, Hq, app_nil_r.
  repeat split.
Qed.

Lemma disable_while_listening_stops_for_good_witness :
  timers (onend samplePage
            (disable samplePage (onstart samplePage (enable samplePage initialWorld)))) =
  timers (onstart samplePage (enable samplePage initialWorld)).
Proof.
  apply (disable_while_listening_stops_for_good samplePage
           (onstart samplePage (enable samplePage initialWorld))); reflexivity.
Defined.

(** X6. A recognition error is logged and answered with a spoken apology;
    the handler changes neither flag, schedules no restart and asks nothing
    of the recogniser. *)
Theorem onerror_leaves_session_alone (env : Env) (error : jsstring) (w : World) :
  isEnabled (onerror env error w) = isEnabled w /\
  isListening (onerror env error w) = isListening w /\
  timers (onerror env error w) = timers w /\
  requests (onerror env error w) = requests w /\
  spoken (trace (onerror env error w)) =
    spoken (trace w) ++
    (if synthesis env then [js "Sorry, I had trouble understanding. Please try again."]
     else []).
Proof.
  unfold onerror.
  destruct (speak_flags env (js "Sorry, I had trouble understanding. Please try again.")
              (emit (Console ErrorLevel (js "Speech recognition error:") error) w)) as (E & L).
  rewrite E, L, speak_timers, speak_requests, speak_trace.
  destruct (synthesis env); trace_norm; repeat split; reflexivity.
Qed.

(** ** What an event can change *)

Ltac effects :=
  unfold effects_only; unfold_engine; cbn; case_all; cbn;
  repeat split; first [left; reflexivity | right; eexists; reflexivity | reflexivity].

Lemma effects_only_refl (w : World) : effects_only w w.
Proof. unfold effects_only. repeat split. left. reflexivity. Qed.

Lemma effects_only_trans (w1 w2 w3 : World) :
  effects_only w1 w2 -> effects_only w2 w3 -> effects_only w1 w3.
Proof.
  unfold effects_only. intros (E1 & L1 & B1 & T1 & Q1) (E2 & L2 & B2 & T2 & Q2).
  rewrite E2, L2, B2, T2. repeat split; try assumption.
  destruct Q2 as [Q2 | [u Q2]]; [rewrite Q2; exact Q1 | right; exists u; exact Q2].
Qed.

Lemma speak_effects_only (env : Env) (m : jsstring) (w : World) :
  effects_only w (speak env m w).
Proof. effects. Qed.

Lemma emit_effects_only (o : Output) (w : World) : effects_only w (emit o w).
Proof. effects. Qed.

Lemma startListening_effects_only (env : Env) (w : World) :
  effects_only w (startListening env w).
Proof. effects. Qed.

Lemma invoke_effects_only (env : Env) (a : Action) (w : World) :
  is_disable a = false -> effects_only w (invoke env a w).
Proof. destruct a; intros H; try discriminate H; effects. Qed.

Lemma handleUnknownCommand_effects_only (env : Env) (p : jsstring) (w : World) :
  effects_only w (handleUnknownCommand env p w).
Proof. effects. Qed.

Lemma settle_effects_only (env : Env) (h : Handler) (o : Outcome) (w : World) :
  effects_only w (settle env h o w).
Proof. destruct h; effects. Qed.

Lemma runCallback_fields (env : Env) (cb : Callback) (w : World) :
  isEnabled (runCallback env cb w) = isEnabled w /\
  isListening (runCallback env cb w) = isListening w /\
  button (runCallback env cb w) = button w /\
  queue (runCallback env cb w) = queue w.
Proof. destruct cb; unfold_engine; cbn; case_all; repeat split; reflexivity. Qed.

Lemma showTranscript_fields (env : Env) (shown : jsstring) (w : World) :
  isEnabled (showTranscript env shown w) = isEnabled w /\
  isListening (showTranscript env shown w) = isListening w /\
  button (showTranscript env shown w) = button w /\
  queue (showTranscript env shown w) = queue w /\
  trace (showTranscript env shown w) = trace w /\
  fetches (showTranscript env shown w) = fetches w.
Proof. unfold showTranscript. destruct (has_transcript env); repeat split; reflexivity. Qed.

Lemma button_fresh_transfer (env : Env) (w w' : World) :
  isEnabled w' = isEnabled w -> isListening w' = isListening w -> button w' = button w ->
  button_fresh env w -> button_fresh env w'.
Proof.
  unfold button_fresh, buttonFor. intros E L B H. rewrite E, L, B. exact H.
Qed.

Lemma button_fresh_effects_only (env : Env) (w w' : World) :
  effects_only w w' -> button_fresh env w -> button_fresh env w'.
Proof. intros (E & L & B & _). apply button_fresh_transfer; assumption. Qed.

Lemma updateVoiceUI_fresh (env : Env) (w : World) :
  has_button env = true -> button_fresh env (updateVoiceUI env w).
Proof.
  intros Hb. unfold button_fresh. rewrite (updateVoiceUI_button _ _ Hb).
  destruct (updateVoiceUI_fields env w) as (E & L & _).
  unfold buttonFor. rewrite E, L. reflexivity.
Qed.

Lemma disable_queue_transcript (env : Env) (w : World) :
  transcript (disable env w) = transcript w /\
  (queue (disable env w) = queue w \/ exists u, queue (disable env w) = [u]).
Proof.
  unfold_engine; cbn; case_all; cbn; split;
    first [left; reflexivity | right; eexists; reflexivity | reflexivity].
Qed.

Lemma enable_queue (env : Env) (w : World) :
  queue (enable env w) = queue w \/ exists u, queue (enable env w) = [u].
Proof.
  unfold_engine; cbn; case_all; cbn;
    first [left; reflexivity | right; eexists; reflexivity].
Qed.

(** How [processCommand] changes the session: it can switch the assistant
    off, and only by resolving the phrase to the [disable] action. *)
Lemma processCommand_session (env : Env) (p : jsstring) (w : World) :
  isEnabled (processCommand env p w) =
    (if resolves_to_disable p then false else isEnabled w) /\
  isListening (processCommand env p w) = isListening w /\
  transcript (processCommand env p w) = transcript w /\
  (queue (processCommand env p w) = queue w \/
   exists u, queue (processCommand env p w) = [u]) /\
  (has_button env = true -> button_fresh env w -> button_fresh env (processCommand env p w)).
Proof.
  set (w' := emit (Console LogLevel (js "Processing command:") p) w).
  assert (Hw : effects_only w w') by apply emit_effects_only.
  assert (Hdis : isEnabled (disable env w') = false /\
                 isListening (disable env w') = isListening w /\
                 transcript (disable env w') = transcript w /\
                 (queue (disable env w') = queue w \/ exists u, queue (disable env w') = [u]) /\
                 (has_button env = true -> button_fresh env w ->
                  button_fresh env (disable env w'))).
  { destruct (disable_fields env w') as (E & L & _).
    destruct (disable_queue_transcript env w') as (T & Q).
    rewrite E, L, T. repeat split; [exact Q|].
    intros Hb _. unfold disable. apply updateVoiceUI_fresh, Hb. }
  assert (Heff : forall w'', effects_only w w'' ->
            isEnabled w'' = isEnabled w /\ isListening w'' = isListening w /\
            transcript w'' = transcript w /\
            (queue w'' = queue w \/ exists u, queue w'' = [u]) /\
            (has_button env = true -> button_fresh env w -> button_fresh env w'')).
  { intros w'' H. pose proof H as (E & L & B & T & Q). repeat split; try assumption.
    intros _. apply button_fresh_effects_only, H. }
  assert (Hact : forall a,
            isEnabled (invoke env a w') = (if is_disable a then false else isEnabled w) /\
            isListening (invoke env a w') = isListening w /\
            transcript (invoke env a w') = transcript w /\
            (queue (invoke env a w') = queue w \/ exists u, queue (invoke env a w') = [u]) /\
            (has_button env = true -> button_fresh env w ->
             button_fresh env (invoke env a w'))).
  { intros a. destruct (is_disable a) eqn:D.
    - destruct a; try discriminate D. exact Hdis.
    - apply Heff. eapply effects_only_trans; [exact Hw|].
      apply invoke_effects_only, D. }
  rewrite processCommand_tier. cbv zeta. fold w'. unfold resolves_to_disable.
  destruct (tier p) as [a | b | k a |].
  - apply Hact.
  - apply Heff. destruct b; [exact Hw|].
    eapply effects_only_trans; [exact Hw | apply emit_effects_only].
  - apply Hact.
  - apply Heff. eapply effects_only_trans; [exact Hw|].
    apply handleUnknownCommand_effects_only.
Qed.

(** X7. Once the button shows what the flags say, it does so after every
    event: each change of [isEnabled] or [isListening] is followed by
    [updateVoiceUI] within the same event. *)
Theorem button_stays_fresh
    (toLowerCase : jsstring -> jsstring) (env : Env) (e : Event) (w : World) :
  has_button env = true ->
  button_fresh env w ->
  button_fresh env (step toLowerCase env e w).
Proof.
  intros Hb Hf. destruct e as [| | | error | event | n | n o]; cbn [step].
  - unfold toggle. destruct (negb (recognition env)).
    + eapply button_fresh_effects_only; [apply speak_effects_only | exact Hf].
    + destruct (isEnabled w); [unfold disable | unfold enable];
        apply updateVoiceUI_fresh, Hb.
  - unfold onstart. eapply button_fresh_effects_only; [apply emit_effects_only|].
    apply updateVoiceUI_fresh, Hb.
  - unfold onend. cbv zeta.
    destruct (isEnabled (updateVoiceUI env (set_isListening false (set_capturing false w)))).
    + apply (button_fresh_transfer env
               (updateVoiceUI env (set_isListening false (set_capturing false w))));
        [reflexivity | reflexivity | reflexivity | apply updateVoiceUI_fresh, Hb].
    + apply updateVoiceUI_fresh, Hb.
  - unfold onerror. eapply button_fresh_effects_only.
    + eapply effects_only_trans; [apply emit_effects_only | apply speak_effects_only].
    + exact Hf.
  - rewrite handleSpeechResult_dispatched. cbv zeta.
    set (w' := showTranscript env _ w).
    assert (Hf' : button_fresh env w').
    { destruct (showTranscript_fields env
                  (or_else (snd (transcripts event)) (fst (transcripts event))) w)
        as (E & L & B & _).
      eapply button_fresh_transfer; eassumption. }
    destruct (dispatched toLowerCase event) as [command|]; [|exact Hf'].
    apply processCommand_session; assumption.
  - destruct (nth_error (timers w) n) as [[ms cb]|]; [|exact Hf].
    destruct (runCallback_fields env cb (set_timers (remove_nth n (timers w)) w))
      as (E & L & B & _).
    eapply button_fresh_transfer; eassumption.
  - destruct (nth_error (fetches w) n) as [[url h]|]; [|exact Hf].
    eapply button_fresh_effects_only; [apply settle_effects_only|]. exact Hf.
Qed.

Lemma button_stays_fresh_witness :
  button_fresh samplePage
    (step asciiLower samplePage RecognitionStarted
       (step asciiLower samplePage Toggle initialWorld)).
Proof.
  apply (button_stays_fresh asciiLower samplePage RecognitionStarted
           (step asciiLower samplePage Toggle initialWorld)); reflexivity.
Defined.

(** X8. [isListening] follows the recogniser's callbacks and nothing else:
    it is set by "start", cleared by "end", and kept by every other event. *)
Theorem listening_flag_follows_callbacks
    (toLowerCase : jsstring -> jsstring) (env : Env) (e : Event) (w : World) :
  isListening (step toLowerCase env e w) =
  match e with
  | RecognitionStarted => true
  | RecognitionEnded => false
  | _ => isListening w
  end.
Proof.
  destruct e as [| | | error | event | n | n o]; cbn [step].
  - unfold toggle. destruct (negb (recognition env)); [apply speak_flags|].
    destruct (isEnabled w); [apply disable_fields | apply enable_fields].
  - apply onstart_fields.
  - apply onend_fields.
  - unfold onerror. rewrite (proj2 (speak_flags _ _ _)). reflexivity.
  - rewrite handleSpeechResult_dispatched. cbv zeta.
    destruct (dispatched toLowerCase event) as [command|].
    + rewrite (proj1 (proj2 (processCommand_session env command _))).
      apply showTranscript_fields.
    + apply showTranscript_fields.
  - destruct (nth_error (timers w) n) as [[ms cb]|]; [|reflexivity].
    rewrite (proj1 (proj2 (runCallback_fields env cb _))). reflexivity.
  - destruct (nth_error (fetches w) n) as [[url h]|]; [|reflexivity].
    rewrite (proj1 (proj2 (settle_effects_only env h o _))). reflexivity.
Qed.

(** X9. Only a toggle (the button or the keyboard shortcut) switches the
    assistant on: an assistant that is enabled after any other event was
    enabled before it.  No spoken phrase, timer or response enables it. *)
Theorem only_toggle_enables
    (toLowerCase : jsstring -> jsstring) (env : Env) (e : Event) (w : World) :
  is_toggle e = false ->
  isEnabled (step toLowerCase env e w) = true ->
  isEnabled w = true.
Proof.
  destruct e as [| | | error | event | n | n o]; cbn [step is_toggle]; intros Ht;
    try discriminate Ht.
  - rewrite (proj1 (onstart_fields env w)). tauto.
  - rewrite (proj1 (onend_fields env w)). tauto.
  - unfold onerror. rewrite (proj1 (speak_flags _ _ _)). tauto.
  - rewrite handleSpeechResult_dispatched. cbv zeta.
    destruct (dispatched toLowerCase event) as [command|].
    + rewrite (proj1 (processCommand_session env command _)).
      destruct (resolves_to_disable command); [discriminate|].
      rewrite (proj1 (showTranscript_fields _ _ _)). tauto.
    + rewrite (proj1 (showTranscript_fields _ _ _)). tauto.
  - destruct (nth_error (timers w) n) as [[ms cb]|]; [|tauto].
    rewrite (proj1 (runCallback_fields env cb _)). tauto.
  - destruct (nth_error (fetches w) n) as [[url h]|]; [|tauto].
    rewrite (proj1 (settle_effects_only env h o _)). tauto.
Qed.

Lemma only_toggle_enables_witness :
  isEnabled (step asciiLower samplePage Toggle initialWorld) = true.
Proof.
  apply (only_toggle_enables asciiLower samplePage RecognitionStarted
           (step asciiLower samplePage Toggle initialWorld)); reflexivity.
Defined.

Lemma step_queue
    (toLowerCase : jsstring -> jsstring) (env : Env) (e : Event) (w : World) :
  queue (step toLowerCase env e w) = queue w \/
  exists u, queue (step toLowerCase env e w) = [u].
Proof.
  destruct e as [| | | error | event | n | n o]; cbn [step].
  - unfold toggle. destruct (negb (recognition env)); [apply speak_effects_only|].
    destruct (isEnabled w); [apply disable_queue_transcript | apply enable_queue].
  - left. unfold onstart, updateVoiceUI. destruct (negb (has_button env)); reflexivity.
  - left. unfold onend, updateVoiceUI. cbv zeta.
    destruct (negb (has_button env)); cbn; destruct (isEnabled w); reflexivity.
  - unfold onerror. rewrite speak_queue.
    destruct (synthesis env); [right; eexists; reflexivity | left; reflexivity].
  - rewrite handleSpeechResult_dispatched. cbv zeta.
    destruct (dispatched toLowerCase event) as [command|].
    + destruct (processCommand_session env command
                  (showTranscript env
                     (or_else (snd (transcripts event)) (fst (transcripts event))) w))
        as (_ & _ & _ & Q & _).
      rewrite (proj1 (proj2 (proj2 (proj2 (showTranscript_fields _ _ _))))) in Q. exact Q.
    + left. apply showTranscript_fields.
  - destruct (nth_error (timers w) n) as [[ms cb]|]; [|left; reflexivity].
    left. rewrite (proj2 (proj2 (proj2 (runCallback_fields env cb _)))). reflexivity.
  - destruct (nth_error (fetches w) n) as [[url h]|]; [|left; reflexivity].
    apply (settle_effects_only env h o (set_fetches (remove_nth n (fetches w)) w)).
Qed.

(** X10. Whatever events arrive after construction, the synthesiser never
    holds more than one utterance of the assistant: every utterance is
    submitted right after a [cancel]. *)
Theorem at_most_one_utterance_queued
    (toLowerCase : jsstring -> jsstring) (env : Env) (events : list Event) :
  (List.length (queue (run toLowerCase env events initialWorld)) <= 1)%nat.
Proof.
  assert (H : forall w, (List.length (queue w) <= 1)%nat ->
                        (List.length (queue (run toLowerCase env events w)) <= 1)%nat).
  { induction events as [|e events IH]; intros w Hw; [exact Hw|].
    cbn [run fold_left]. apply IH.
    destruct (step_queue toLowerCase env e w) as [Q | [u Q]]; rewrite Q;
      [exact Hw | cbn; lia]. }
  apply H. cbn. lia.
Qed.

(** ** Voice selection *)

(** X11. The utterance [speak] submits has rate 0.9, pitch 1 and volume 0.8,
    and its voice is the first voice, in the order [getVoices] lists them,
    whose name contains "Google" or "Microsoft" or whose language starts with
    "en"; if there is none, the voice is left to the synthesiser. *)
Theorem speak_picks_first_preferred_voice (env : Env) (m : jsstring) (w : World) :
  queue (speak env m w) = (if synthesis env then [utterance env m] else queue w) /\
  text (utterance env m) = m /\
  (rate (utterance env m), pitch (utterance env m), volume (utterance env m)) =
    (9 # 10, 1, 8 # 10) /\
  match voice (utterance env m) with
  | Some v =>
      exists before after,
        getVoices env = before ++ v :: after /\ preferred v = true /\
        forallb (fun v' => negb (preferred v')) before = true
  | None => forallb (fun v' => negb (preferred v')) (getVoices env) = true
  end.
Proof.
  rewrite speak_queue. repeat split. cbn [voice utterance].
  destruct (find preferred (getVoices env)) as [v|] eqn:F.
  - destruct (find_first _ _ _ F) as (before & after & Hs & Hp & Hb).
    exists before, after. repeat split; try assumption.
    apply forallb_forall. intros v' Hv'. rewrite (Hb v' Hv'). reflexivity.
  - apply forallb_forall. intros v' Hv'.
    rewrite (proj1 (find_None_iff _ _) F v' Hv'). reflexivity.
Qed.

(** A voice that merely speaks English wins over a Google voice listed after
    it: the three tests are alternatives of one test, not priorities. *)
Example english_voice_listed_first_wins :
  voice (utterance
           {| recognition := true; synthesis := true;
              getVoices := [ {| voice_name := js "Alex"; voice_lang := js "en-GB" |};
                             {| voice_name := js "Google US English";
                                voice_lang := js "en-US" |} ];
              pathname := js "/"; has_startQuickLesson := false; has_resetGraph := false;
              has_centerGraph := false; has_button := true; has_transcript := true;
              random := fun _ => 0 |} (js "hello"))
  = Some {| voice_name := js "Alex"; voice_lang := js "en-GB" |}.
Proof. reflexivity. Qed.

(** ** Result batches, continued *)

Lemma or_else_empty (s : jsstring) : or_else s [] = s.
Proof. destruct s; reflexivity. Qed.

(** X12. A batch without final text is only displayed: its interim text is
    shown, [processCommand] is not called, and so nothing is logged, spoken,
    fetched or navigated. *)
Theorem interim_only_batch_is_only_displayed
    (toLowerCase : jsstring -> jsstring) (env : Env) (event : SpeechEvent) (w : World) :
  finalText event = [] ->
  dispatched toLowerCase event = None /\
  handleSpeechResult toLowerCase env event w = showTranscript env (interimText event) w /\
  trace (handleSpeechResult toLowerCase env event w) = trace w /\
  fetches (handleSpeechResult toLowerCase env event w) = fetches w /\
  queue (handleSpeechResult toLowerCase env event w) = queue w.
Proof.
  intros Hf.
  assert (Hd : dispatched toLowerCase event = None).
  { unfold dispatched. rewrite transcripts_spec. cbn [fst]. rewrite Hf. reflexivity. }
  assert (Hh : handleSpeechResult toLowerCase env event w =
               showTranscript env (interimText event) w).
  { rewrite handleSpeechResult_dispatched, Hd, transcripts_spec. cbn [fst snd].
    rewrite Hf, or_else_empty. reflexivity. }
  rewrite Hh.
  destruct (showTranscript_fields env (interimText event) w) as (_ & _ & _ & Q & T & F).
  repeat split; assumption.
Qed.

Lemma interim_only_batch_is_only_displayed_witness :
  trace (handleSpeechResult asciiLower samplePage
           {| resultIndex := 0; results := [interim_result "stop listening"] |} initialWorld)
  = trace initialWorld.
Proof.
  apply (interim_only_batch_is_only_displayed asciiLower samplePage
           {| resultIndex := 0; results := [interim_result "stop listening"] |} initialWorld).
  reflexivity.
Defined.

(** X13. When [resultIndex] is not below the number of results, the loop
    does not run: an empty transcript is shown and no command is
    dispatched, whatever the results before [resultIndex] say. *)
Theorem result_index_past_the_end
    (toLowerCase : jsstring -> jsstring) (env : Env) (event : SpeechEvent) (w : World) :
  (List.length (results event) <= resultIndex event)%nat ->
  handleSpeechResult toLowerCase env event w = showTranscript env [] w.
Proof.
  intros Hle. unfold handleSpeechResult, transcripts.
  rewrite (skipn_all2 (results event) Hle). reflexivity.
Qed.

Lemma result_index_past_the_end_witness :
  handleSpeechResult asciiLower samplePage
    {| resultIndex := 2; results := [final_result "mute"; final_result "help"] |} initialWorld
  = showTranscript samplePage [] initialWorld.
Proof.
  apply (result_index_past_the_end asciiLower samplePage
           {| resultIndex := 2; results := [final_result "mute"; final_result "help"] |}
           initialWorld).
  cbn. lia.
Defined.

(** X14. Where the transcript element exists, a batch leaves it showing the
    interim text if there is any, and the final text otherwise; when a batch
    has both, the interim text is displayed while the final text is
    dispatched. *)
Theorem transcript_prefers_interim_text
    (toLowerCase : jsstring -> jsstring) (env : Env) (event : SpeechEvent) (w : World) :
  has_transcript env = true ->
  transcript (handleSpeechResult toLowerCase env event w) =
    Some (if truthy (interimText event) then interimText event else finalText event, true) /\
  dispatched toLowerCase event =
    (if truthy (finalText event) then Some (trim (toLowerCase (finalText event))) else None).
Proof.
  intros Ht. split.
  - rewrite handleSpeechResult_dispatched. cbv zeta.
    rewrite transcripts_spec. cbn [fst snd].
    assert (Hs : transcript (showTranscript env
                   (or_else (interimText event) (finalText event)) w) =
                 Some (or_else (interimText event) (finalText event), true)).
    { unfold showTranscript. rewrite Ht. reflexivity. }
    destruct (dispatched toLowerCase event) as [command|].
    + rewrite (proj1 (proj2 (proj2 (processCommand_session env command _)))). exact Hs.
    + exact Hs.
  - unfold dispatched. rewrite transcripts_spec. reflexivity.
Qed.

Lemma transcript_prefers_interim_text_witness :
  transcript (handleSpeechResult asciiLower samplePage
                {| resultIndex := 0;
                   results := [final_result "show graph"; interim_result "and then"] |}
                initialWorld)
  = Some (js "and then", true).
Proof.
  apply (transcript_prefers_interim_text asciiLower samplePage
           {| resultIndex := 0;
              results := [final_result "show graph"; interim_result "and then"] |}
           initialWorld).
  reflexivity.
Defined.

Lemma nth_error_middle {A : Type} (l : list A) (x : A) (rest : list A) :
  nth_error (l ++ x :: rest) (List.length l) = Some x.
Proof. induction l as [|y l IH]; simpl; [reflexivity | exact IH]. Qed.

Lemma remove_nth_middle {A : Type} (l : list A) (x : A) (rest : list A) :
  remove_nth (List.length l) (l ++ x :: rest) = l ++ rest.
Proof. induction l as [|y l IH]; simpl; [reflexivity | rewrite IH; reflexivity]. Qed.

(** X15. Hide timers are never cancelled: when two transcripts are shown
    one after the other, the hide timer of the first, once it fires, hides
    the second, whose own timer is still pending. *)
Theorem stale_hide_timer_hides_newer_transcript
    (toLowerCase : jsstring -> jsstring) (env : Env) (older newer : jsstring) (w : World) :
  has_transcript env = true ->
  timers (showTranscript env newer (showTranscript env older w)) =
    timers w ++ [(3000%N, HideTranscript); (3000%N, HideTranscript)] /\
  transcript (showTranscript env newer (showTranscript env older w)) = Some (newer, true) /\
  transcript (step toLowerCase env (TimerFires (List.length (timers w)))
                (showTranscript env newer (showTranscript env older w))) =
    Some (newer, false) /\
  timers (step toLowerCase env (TimerFires (List.length (timers w)))
            (showTranscript env newer (showTranscript env older w))) =
    timers w ++ [(3000%N, HideTranscript)].
Proof.
  intros Ht.
  assert (Htm : timers (showTranscript env newer (showTranscript env older w)) =
                timers w ++ [(3000%N, HideTranscript); (3000%N, HideTranscript)]).
  { unfold showTranscript, setTimeout. rewrite Ht. cbn. rewrite <- app_assoc. reflexivity. }
  assert (Htr : transcript (showTranscript env newer (showTranscript env older w)) =
                Some (newer, true)).
  { unfold showTranscript. rewrite Ht. reflexivity. }
  split; [exact Htm | split; [exact Htr|]].
  cbn [step]. rewrite Htm, nth_error_middle, remove_nth_middle.
  cbn [runCallback transcript timers set_transcript set_timers]. rewrite Htr.
  split; reflexivity.
Qed.

Lemma stale_hide_timer_hides_newer_transcript_witness :
  transcript (step asciiLower samplePage (TimerFires (List.length (timers initialWorld)))
                (showTranscript samplePage (js "show graph")
                   (showTranscript samplePage (js "show") initialWorld)))
  = Some (js "show graph", false).
Proof.
  apply (stale_hide_timer_hides_newer_transcript asciiLower samplePage
           (js "show") (js "show graph") initialWorld).
  reflexivity.
Defined.

(** ** The matcher, continued *)

(** [handleUnknownCommand] is reached exactly on the phrases that are no
    key of the table, no name inherited from [Object.prototype], and match
    no entry partially. *)
Lemma unknown_tier_iff (p : jsstring) :
  tier p = UnknownTier <->
  (~ In p (keys initializeCommands) /\ ~ In p (map fst Object_prototype) /\
   forall k, In k (keys initializeCommands) -> includes p k = false /\ includes k p = false).
Proof.
  unfold tier, getProperty. split.
  - destruct (assoc initializeCommands p) eqn:A; [discriminate|].
    destruct (assoc Object_prototype p) eqn:B; [discriminate|].
    destruct (find (partialMatch p) initializeCommands) as [[k a]|] eqn:F; [discriminate|].
    intros _. split; [apply assoc_None_iff, A | split; [apply assoc_None_iff, B|]].
    intros k Hk. apply in_map_iff in Hk as ([k' a] & Hfst & Hin). cbn in Hfst. subst k'.
    pose proof (proj1 (find_None_iff _ _) F _ Hin) as Hm.
    unfold partialMatch in Hm. cbn [fst] in Hm. apply orb_false_iff in Hm. exact Hm.
  - intros (A & B & C).
    apply assoc_None_iff in A. apply assoc_None_iff in B. rewrite A, B.
    assert (F : find (partialMatch p) initializeCommands = None).
    { apply find_None_iff. intros [k a] Hin. unfold partialMatch. cbn [fst].
      destruct (C k (in_map fst _ _ Hin)) as [C1 C2]. rewrite C1, C2. reflexivity. }
    rewrite F. reflexivity.
Qed.

(** X16. On a phrase that is no key of the table and no name inherited from
    [Object.prototype], and that neither contains a key nor is contained in
    one, [processCommand] runs the unknown-command heuristic: the learning
    suggestion if the phrase contains "concept" or "learn", the apology
    otherwise (the help branch cannot be taken). *)
Theorem unmatched_phrase_runs_fallback (env : Env) (p : jsstring) (w : World) :
  ~ In p (keys initializeCommands) ->
  ~ In p (map fst Object_prototype) ->
  (forall k, In k (keys initializeCommands) -> includes p k = false /\ includes k p = false) ->
  tier p = UnknownTier /\
  processCommand env p w =
    speak env
      (if includes p (js "concept") || includes p (js "learn")
       then learningSuggestion else apology)
      (emit (Console LogLevel (js "Processing command:") p) w).
Proof.
  intros A B C.
  assert (Ht : tier p = UnknownTier) by (apply unknown_tier_iff; auto).
  split; [exact Ht|].
  rewrite (unknown_tier_runs_fallback env p w Ht). cbv zeta.
  assert (Hh : includes p (js "help") = false).
  { apply (C (js "help")). vm_compute. tauto. }
  unfold fallback. rewrite Hh.
  destruct (includes p (js "concept") || includes p (js "learn")); reflexivity.
Qed.

Lemma unmatched_phrase_runs_fallback_witness :
  processCommand samplePage (js "i want to learn") initialWorld =
    speak samplePage learningSuggestion
      (emit (Console LogLevel (js "Processing command:") (js "i want to learn")) initialWorld).
Proof.
  apply (unmatched_phrase_runs_fallback samplePage (js "i want to learn") initialWorld).
  - vm_compute. intros H. repeat (destruct H as [H | H]; [discriminate H|]). exact H.
  - vm_compute. intros H. repeat (destruct H as [H | H]; [discriminate H|]). exact H.
  - intros k Hk. vm_compute in Hk.
    repeat (destruct Hk as [<- | Hk]; [split; vm_compute; reflexivity|]). destruct Hk.
Defined.

Lemma disable_keys (k : jsstring) :
  In (k, Disable) initializeCommands -> k = js "stop listening" \/ k = js "mute".
Proof.
  intros H. unfold initializeCommands in H. cbn [In] in H.
  repeat (destruct H as [H | H]; [try discriminate H|]); try contradiction;
    injection H as <-; auto.
Qed.

(** X17. A phrase switches an enabled assistant off only if it is, contains
    or is contained in 'stop listening' or 'mute'. *)
Theorem only_stop_phrases_disable (env : Env) (p : jsstring) (w : World) :
  isEnabled w = true ->
  isEnabled (processCommand env p w) = false ->
  exists k, (k = js "stop listening" \/ k = js "mute") /\
            (p = k \/ includes p k = true \/ includes k p = true).
Proof.
  intros He Hd.
  rewrite (proj1 (processCommand_session env p w)), He in Hd.
  unfold resolves_to_disable, tier, getProperty in Hd.
  destruct (assoc initializeCommands p) as [a|] eqn:A.
  - destruct a; try discriminate Hd. apply assoc_Some_In in A.
    exists p. split; [apply disable_keys, A | left; reflexivity].
  - destruct (assoc Object_prototype p); [discriminate Hd|].
    destruct (find (partialMatch p) initializeCommands) as [[k a]|] eqn:F;
      [|discriminate Hd].
    destruct a; try discriminate Hd.
    destruct (find_first _ _ _ F) as (before & after & Hs & Hm & _).
    exists k. split.
    + apply disable_keys. rewrite Hs. apply in_or_app. right. left. reflexivity.
    + right. unfold partialMatch in Hm. cbn [fst] in Hm. apply orb_true_iff in Hm. exact Hm.
Qed.

Lemma only_stop_phrases_disable_witness :
  exists k, (k = js "stop listening" \/ k = js "mute") /\
            (js "please mute yourself" = k \/ includes (js "please mute yourself") k = true \/
             includes k (js "please mute yourself") = true).
Proof.
  apply (only_stop_phrases_disable samplePage (js "please mute yourself")
           (step asciiLower samplePage Toggle initialWorld)); reflexivity.
Defined.

(** ** Fetch handlers, continued *)

Lemma settle_shape (env : Env) (h : Handler) (o : Outcome) (w : World) :
  exists m,
    settle env h o w = speak env m w \/
    exists href, h = NextConceptHandler /\
                 settle env h o w = setTimeout (GoTo href) 2000 (speak env m w).
Proof.
  destruct h, o as [|data]; cbn [settle onNextConcept onProgress onStats onAIHelp];
    try (eexists; left; reflexivity).
  all: destruct data as [[[|next rest]|] | ? ? | ? ? ? | ? ? ?];
    try (eexists; left; reflexivity).
  eexists. right. eexists. split; reflexivity.
Qed.

(** X18. However a fetch settles, its handler speaks exactly one sentence and
    stops there: no fetch is issued again, no location is assigned, no
    request goes to the recogniser and the flags are unchanged; the only
    timer a handler can add is the navigation of "next concept". *)
Theorem fetch_handlers_speak_once (env : Env) (h : Handler) (o : Outcome) (w : World) :
  fetches (settle env h o w) = fetches w /\
  navigations (settle env h o w) = navigations w /\
  requests (settle env h o w) = requests w /\
  isEnabled (settle env h o w) = isEnabled w /\
  isListening (settle env h o w) = isListening w /\
  (exists m, spoken (trace (settle env h o w)) =
             spoken (trace w) ++ (if synthesis env then [m] else [])) /\
  (timers (settle env h o w) = timers w \/
   exists href, h = NextConceptHandler /\
                timers (settle env h o w) = timers w ++ [(2000%N, GoTo href)]).
Proof.
  assert (Hnav : forall m, navigations (speak env m w) = navigations w).
  { intros m. unfold navigations. rewrite speak_trace, filter_app.
    destruct (synthesis env); cbn; apply app_nil_r. }
  assert (Hsp : forall m, spoken (trace (speak env m w)) =
                          spoken (trace w) ++ (if synthesis env then [m] else [])).
  { intros m. rewrite speak_trace, spoken_app. destruct (synthesis env); reflexivity. }
  destruct (settle_effects_only env h o w) as (E & L & _).
  destruct (settle_shape env h o w) as (m & [Hs | (href & Hh & Hs)]); rewrite Hs in *.
  - rewrite speak_fetches, Hnav, speak_requests, speak_timers.
    repeat split; try assumption; [exists m; apply Hsp | left; reflexivity].
  - unfold navigations, requests in *.
    cbn [fetches trace timers setTimeout set_timers] in *.
    rewrite speak_fetches, speak_timers.
    repeat split; try assumption; try apply Hnav; try apply speak_requests.
    + exists m. apply Hsp.
    + right. exists href. split; [exact Hh | reflexivity].
Qed.

Lemma navigations_speak (env : Env) (m : jsstring) (w : World) :
  navigations (speak env m w) = navigations w.
Proof.
  unfold navigations. rewrite speak_trace, filter_app.
  destruct (synthesis env); cbn; apply app_nil_r.
Qed.

(** X19. When the learning path answers with a non-empty list of concepts,
    the handler of "next concept" announces the first one by name and
    schedules, two seconds later, the navigation to that concept's page;
    nothing is navigated before that timer fires.  With an empty or missing
    list it only congratulates. *)
Theorem next_concept_opens_first_concept
    (toLowerCase : jsstring -> jsstring) (env : Env)
    (next : Concept) (rest : list Concept) (w : World) :
  spoken (trace (onNextConcept env (Fulfilled (LearningPath (Some (next :: rest)))) w)) =
    spoken (trace w) ++
    (if synthesis env
     then [js "Your next concept is " ++ concept_name next ++ js ". Opening it now!"]
     else []) /\
  timers (onNextConcept env (Fulfilled (LearningPath (Some (next :: rest)))) w) =
    timers w ++ [(2000%N, GoTo (js "/course/concept/" ++ concept_id next))] /\
  navigations (onNextConcept env (Fulfilled (LearningPath (Some (next :: rest)))) w) =
    navigations w /\
  navigations (step toLowerCase env (TimerFires (List.length (timers w)))
                 (onNextConcept env (Fulfilled (LearningPath (Some (next :: rest)))) w)) =
    navigations w ++ [LocationAssign (js "/course/concept/" ++ concept_id next)] /\
  onNextConcept env (Fulfilled (LearningPath (Some []))) w =
    speak env (js "Great job! You've completed all available concepts.") w /\
  onNextConcept env (Fulfilled (LearningPath None)) w =
    speak env (js "Great job! You've completed all available concepts.") w.
Proof.
  cbn [onNextConcept].
  set (m := js "Your next concept is " ++ concept_name next ++ js ". Opening it now!").
  set (href := js "/course/concept/" ++ concept_id next).
  assert (Ht : timers (setTimeout (GoTo href) 2000 (speak env m w)) =
               timers w ++ [(2000%N, GoTo href)]).
  { cbn [timers setTimeout set_timers]. rewrite speak_timers. reflexivity. }
  assert (Hn : navigations (setTimeout (GoTo href) 2000 (speak env m w)) = navigations w).
  { exact (navigations_speak env m w). }
  repeat split; try assumption.
  - change (trace (setTimeout (GoTo href) 2000 (speak env m w)))
      with (trace (speak env m w)).
    rewrite speak_trace, spoken_app. destruct (synthesis env); reflexivity.
  - cbn [step]. rewrite Ht, nth_error_last, remove_nth_last.
    cbn [runCallback]. unfold navigations. rewrite emit_trace, filter_app.
    change (trace (set_timers (timers w) (setTimeout (GoTo href) 2000 (speak env m w))))
      with (trace (speak env m w)).
    fold (navigations (speak env m w)). rewrite navigations_speak. reflexivity.
Qed.






(** ** Page functions *)

Lemma pageCalls_speak (env : Env) (m : jsstring) (w : World) :
  pageCalls (speak env m w) = pageCalls w.
Proof.
  unfold pageCalls. rewrite speak_trace, filter_app.
  destruct (synthesis env); cbn; apply app_nil_r.
Qed.

Lemma pageCalls_setTimeout (cb : Callback) (ms : N) (w : World) :
  pageCalls (setTimeout cb ms w) = pageCalls w.
Proof. reflexivity. Qed.

Lemma pageCalls_fetch (url : jsstring) (h : Handler) (w : World) :
  pageCalls (fetch url h w) = pageCalls w.
Proof. reflexivity. Qed.

Lemma pageCalls_emit (o : Output) (w : World) :
  pageCalls (emit o w) = pageCalls w ++ (if is_page_call o then [o] else []).
Proof.
  unfold pageCalls. rewrite emit_trace, filter_app. cbn. destruct (is_page_call o); reflexivity.
Qed.

Lemma pageCalls_disable (env : Env) (w : World) : pageCalls (disable env w) = pageCalls w.
Proof.
  unfold disable, pageCalls.
  rewrite (proj2 (proj2 (proj2 (updateVoiceUI_fields env _)))).
  fold (pageCalls (speak env (js "Voice assistant deactivated.")
                     (stopListening env (set_isEnabled false w)))).
  rewrite pageCalls_speak. unfold stopListening.
  destruct (recognition env && isListening (set_isEnabled false w));
    [rewrite pageCalls_emit; apply app_nil_r | reflexivity].
Qed.

Lemma invoke_pageCalls (env : Env) (a : Action) (w : World) :
  pageCalls (invoke env a w) =
  pageCalls w ++
  (if eqb (pathname env) (js "/graph") then
     match a with
     | ResetGraph => if has_resetGraph env then [PageCall PageResetGraph] else []
     | CenterGraph => if has_centerGraph env then [PageCall PageCenterGraph] else []
     | _ => []
     end
   else []).
Proof.
  assert (Hnil : forall l : list Output,
            l ++ (if eqb (pathname env) (js "/graph") then [] else []) = l).
  { intros l. destruct (eqb (pathname env) (js "/graph")); apply app_nil_r. }
  destruct a; cbn [invoke]; rewrite ?Hnil;
    unfold startQuickLesson, nextConcept, showProgress, showStats, getAIRecommendation,
      getAIHelp, getStudyTips, explainConcept, showHelp, showCapabilities, zoomGraph,
      resetGraph, centerGraph;
    cbv zeta;
    rewrite ?pageCalls_setTimeout, ?pageCalls_fetch, ?pageCalls_disable.
  - rewrite pageCalls_emit. apply app_nil_r.
  - apply pageCalls_speak.
  - apply pageCalls_speak.
  - apply pageCalls_speak.
  - apply pageCalls_speak.
  - apply pageCalls_speak.
  - apply pageCalls_speak.
  - rewrite pageCalls_speak. reflexivity.
  - destruct (eqb (pathname env) (js "/graph")); apply pageCalls_speak.
  - destruct (eqb (pathname env) (js "/graph")), (has_resetGraph env); cbn [andb];
      rewrite ?pageCalls_emit, pageCalls_speak, ?app_nil_r; reflexivity.
  - destruct (eqb (pathname env) (js "/graph")), (has_centerGraph env); cbn [andb];
      rewrite ?pageCalls_emit, pageCalls_speak, ?app_nil_r; reflexivity.
  - apply pageCalls_speak.
  - apply pageCalls_speak.
  - apply pageCalls_speak.
  - reflexivity.
Qed.

(** X22. [processCommand] calls a function of the page only for the actions
    "reset graph" and "center graph", only on the page '/graph', and only if
    the page defines the function; zooming calls nothing. *)
Theorem page_functions_need_the_graph_page (env : Env) (p : jsstring) (w : World) :
  pageCalls (processCommand env p w) =
  pageCalls w ++
  (if eqb (pathname env) (js "/graph") then
     match tier p with
     | ExactTier ResetGraph | PartialTier _ ResetGraph =>
         if has_resetGraph env then [PageCall PageResetGraph] else []
     | ExactTier CenterGraph | PartialTier _ CenterGraph =>
         if has_centerGraph env then [PageCall PageCenterGraph] else []
     | _ => []
     end
   else []).
Proof.
  assert (Hnil : forall l : list Output,
            l ++ (if eqb (pathname env) (js "/graph") then [] else []) = l).
  { intros l. destruct (eqb (pathname env) (js "/graph")); apply app_nil_r. }
  rewrite processCommand_tier. cbv zeta.
  destruct (tier p) as [a | b | k a |].
  - rewrite invoke_pageCalls, pageCalls_emit. cbn [is_page_call]. rewrite app_nil_r.
    destruct a; reflexivity.
  - rewrite Hnil. destruct b; cbn [call_builtin]; rewrite !pageCalls_emit; cbn [is_page_call];
      rewrite ?app_nil_r; reflexivity.
  - rewrite invoke_pageCalls, pageCalls_emit. cbn [is_page_call]. rewrite app_nil_r.
    destruct a; reflexivity.
  - rewrite Hnil. unfold handleUnknownCommand, showHelp.
    destruct (includes p (js "concept") || includes p (js "learn"));
      [|destruct (includes p (js "help"))];
      rewrite pageCalls_speak, pageCalls_emit; apply app_nil_r.
Qed.

Lemma navigations_emit (o : Output) (w : World) :
  navigations (emit o w) = navigations w ++ (if is_navigation o then [o] else []).
Proof.
  unfold navigations. rewrite emit_trace, filter_app. cbn.
  destruct (is_navigation o); reflexivity.
Qed.

Lemma navigations_disable (env : Env) (w : World) :
  navigations (disable env w) = navigations w.
Proof.
  unfold disable, navigations.
  rewrite (proj2 (proj2 (proj2 (updateVoiceUI_fields env _)))).
  fold (navigations (speak env (js "Voice assistant deactivated.")
                       (stopListening env (set_isEnabled false w)))).
  rewrite navigations_speak. unfold stopListening.
  destruct (recognition env && isListening (set_isEnabled false w));
    [rewrite navigations_emit; apply app_nil_r | reflexivity].
Qed.

Lemma timers_disable (env : Env) (w : World) : timers (disable env w) = timers w.
Proof. apply disable_fields. Qed.

(** X23. Of all actions, only the six navigation commands assign the
    location at once.  "start learning" and the three "explain" commands
    navigate through a timer (after 1000 ms and 1500 ms), so that the
    announcement can start first; no other action schedules a timer. *)
Theorem only_navigation_commands_navigate_at_once (env : Env) (a : Action) (w : World) :
  navigations (invoke env a w) =
    navigations w ++
    match a with Navigate href => [LocationAssign href] | _ => [] end /\
  timers (invoke env a w) =
    timers w ++
    match a with
    | StartQuickLesson => [(1000%N, QuickLessonOrCourseList)]
    | ExplainConcept conceptId => [(1500%N, GoTo (js "/course/concept/" ++ conceptId))]
    | _ => []
    end.
Proof.
  destruct a; cbn [invoke];
    unfold startQuickLesson, nextConcept, showProgress, showStats, getAIRecommendation,
      getAIHelp, getStudyTips, explainConcept, showHelp, showCapabilities, zoomGraph,
      resetGraph, centerGraph;
    cbv zeta; rewrite ?navigations_disable, ?timers_disable;
    repeat match goal with
           | |- context [if ?c then _ else _] => destruct c
           end;
    unfold navigations, fetch, setTimeout;
    cbn [trace timers set_timers set_fetches emit set_trace];
    rewrite ?speak_trace, ?speak_timers, ?filter_app;
    cbn [trace timers set_draws]; rewrite ?filter_app;
    destruct (synthesis env); cbn; rewrite ?app_nil_r; split; reflexivity.
Qed.

(** ** [formatDuration] *)



Example formatDuration_examples :
  formatDuration 45 = js "45 min" /\ formatDuration 60 = js "1h" /\
  formatDuration 135 = js "2h 15m" /\ formatDuration 0 = js "0 min".
Proof. repeat split; vm_compute; reflexivity. Qed.

(** ** Commands and the enabled flag *)

Lemma invoke_ignores_enabled (env : Env) (a : Action) (b : bool) (w : World) :
  trace (invoke env a (set_isEnabled b w)) = trace (invoke env a w) /\
  fetches (invoke env a (set_isEnabled b w)) = fetches (invoke env a w) /\
  timers (invoke env a (set_isEnabled b w)) = timers (invoke env a w).
Proof. destruct a; unfold_engine; cbn; case_all; repeat split; reflexivity. Qed.

(** X25. [handleSpeechResult] does not look at [isEnabled]: a batch that
    arrives while the assistant is disabled is displayed and dispatched like
    any other, with the same calls, fetches and timers. *)
Theorem results_are_dispatched_when_disabled
    (toLowerCase : jsstring -> jsstring) (env : Env) (event : SpeechEvent)
    (b : bool) (w : World) :
  trace (handleSpeechResult toLowerCase env event (set_isEnabled b w)) =
    trace (handleSpeechResult toLowerCase env event w) /\
  fetches (handleSpeechResult toLowerCase env event (set_isEnabled b w)) =
    fetches (handleSpeechResult toLowerCase env event w) /\
  timers (handleSpeechResult toLowerCase env event (set_isEnabled b w)) =
    timers (handleSpeechResult toLowerCase env event w).
Proof.
  rewrite !handleSpeechResult_dispatched. cbv zeta.
  set (shown := or_else (snd (transcripts event)) (fst (transcripts event))).
  assert (Hs : showTranscript env shown (set_isEnabled b w) =
               set_isEnabled b (showTranscript env shown w)).
  { unfold showTranscript. destruct (has_transcript env); reflexivity. }
  rewrite Hs. set (w' := showTranscript env shown w).
  destruct (dispatched toLowerCase event) as [command|]; [|repeat split; reflexivity].
  rewrite !processCommand_tier. cbv zeta.
  change (emit (Console LogLevel (js "Processing command:") command) (set_isEnabled b w'))
    with (set_isEnabled b (emit (Console LogLevel (js "Processing command:") command) w')).
  destruct (tier command) as [a | bi | k a |].
  - apply invoke_ignores_enabled.
  - destruct bi; repeat split; reflexivity.
  - apply invoke_ignores_enabled.
  - unfold_engine; cbn; case_all; repeat split; reflexivity.
Qed.

(** ** Debounced resize *)

Lemma resize_invariant (events : list ResizeEvent) (r : Resizer) :
  (pendingRenders r = [] \/
   exists id, pendingRenders r = [id] /\ resizeTimeout r = Some id) ->
  pendingRenders (fold_left resizeStep events r) = [] \/
  exists id, pendingRenders (fold_left resizeStep events r) = [id] /\
             resizeTimeout (fold_left resizeStep events r) = Some id.
Proof.
  revert r; induction events as [|e events IH]; intros r H; [exact H|].
  cbn [fold_left]. apply IH. destruct e as [|id]; cbn [resizeStep].
  - right. exists (nextTimerId r). split; [|reflexivity].
    unfold onresize. cbn [pendingRenders].
    destruct H as [-> | (id & -> & ->)].
    + destruct (resizeTimeout r); reflexivity.
    + cbn. rewrite Nat.eqb_refl. reflexivity.
  - unfold renderFires. cbn [pendingRenders resizeTimeout].
    destruct H as [-> | (id' & -> & ->)]; [left; reflexivity|].
    cbn. destruct (Nat.eqb id id'); [left; reflexivity | right; exists id'; auto].
Qed.

(** X26. The resize handler debounces: however resize events and timer
    firings interleave after the page has loaded, at most one render is
    pending, and right after a resize exactly one is, the one set last. *)
Theorem resize_is_debounced (events : list ResizeEvent) :
  (List.length (pendingRenders (fold_left resizeStep events pageLoaded)) <= 1)%nat /\
  pendingRenders (onresize (fold_left resizeStep events pageLoaded)) =
    [nextTimerId (fold_left resizeStep events pageLoaded)].
Proof.
  assert (H : pendingRenders (fold_left resizeStep events pageLoaded) = [] \/
              exists id, pendingRenders (fold_left resizeStep events pageLoaded) = [id] /\
                         resizeTimeout (fold_left resizeStep events pageLoaded) = Some id).
  { apply resize_invariant. left. reflexivity. }
  set (r := fold_left resizeStep events pageLoaded) in *.
  unfold onresize. cbn [pendingRenders].
  destruct H as [E | (id & E & T)]; rewrite E; split; cbn; try lia.
  - destruct (resizeTimeout r); reflexivity.
  - rewrite T. cbn. rewrite Nat.eqb_refl. reflexivity.
Qed.
